(** * discord.py voice client: a shallow embedding of [discord/voice_client.py]

    The file models [VoiceClient]: its three packet counters and
    [checked_add], the RTP header and the three encryption layouts of
    [_get_voice_packet], and the control methods [__init__],
    [on_voice_server_update], [disconnect], [play], [listen] and
    [send_audio_packet].

    Python integers are unbounded, so counters are [Z].  A [bytes] or
    [bytearray] value is a list of integers, each meant to lie in 0..255.
    A method that mutates [self] and may raise is a function from the world
    before the call to an outcome and the world after it: what was mutated
    before an exception was raised stays mutated. *)

From Stdlib Require Import ZArith List Ascii String Lia Bool.
From stdpp Require Import gmap strings.
Import ListNotations.

Local Open Scope string_scope.
Local Open Scope list_scope.
Local Open Scope Z_scope.

(** ** Exceptions and outcomes *)

(** The exception classes the modelled methods raise or let through. *)
Inductive exn : Type :=
| RuntimeError
| ClientException
| TypeError
| ValueError
| AttributeError
| KeyError
| OSError
| StructError
| OpusNotLoaded
| OpusError
| CryptoError.

#[global] Instance exn_eq_dec : EqDecision exn.
Proof. solve_decision. Defined.

(** The outcome of a call: a value, or a raised exception. *)
Inductive res (A : Type) : Type :=
| Ok (a : A)
| Raise (e : exn).

Arguments Ok {A} a.
Arguments Raise {A} e.

Definition res_bind {A B : Type} (r : res A) (f : A -> res B) : res B :=
  match r with
  | Ok a => f a
  | Raise e => Raise e
  end.

Definition res_map {A B : Type} (f : A -> B) (r : res A) : res B :=
  match r with
  | Ok a => Ok (f a)
  | Raise e => Raise e
  end.

(** ** Methods as state transformers

    [M W A] is a computation over a world [W] that returns an [A] or raises:
    it gives the outcome together with the world after it, so mutations made
    before a [Raise] are kept. *)
Definition M (W A : Type) : Type := W -> res A * W.

Definition ret {W A : Type} (a : A) : M W A := fun w => (Ok a, w).

Definition raise {W A : Type} (e : exn) : M W A := fun w => (Raise e, w).

Definition bind {W A B : Type} (m : M W A) (f : A -> M W B) : M W B :=
  fun w =>
    match m w with
    | (Ok a, w') => f a w'
    | (Raise e, w') => (Raise e, w')
    end.

Definition lift_res {W A : Type} (r : res A) : M W A := fun w => (r, w).

Definition get_world {W : Type} : M W W := fun w => (Ok w, w).

Definition modify {W : Type} (f : W -> W) : M W unit := fun w => (Ok tt, f w).

(** [try: body / except E: handler], for the exception [E]. *)
Definition try_except {W : Type} (body : M W unit) (E : exn) (handler : M W unit)
  : M W unit :=
  fun w =>
    match body w with
    | (Ok a, w') => (Ok a, w')
    | (Raise e, w') =>
        if decide (e = E) then handler w' else (Raise e, w')
    end.

Notation "'let*' x := c 'in' k" := (bind c (fun x => k))
  (at level 10, x name, c at level 100, k at level 200, only parsing).
Notation "c ;;; k" := (bind c (fun _ => k))
  (at level 100, k at level 200, right associativity, only parsing).

(** ** Byte strings and [struct] *)

Definition bytes : Type := list Z.

(** [bytearray(n)]: [n] zero bytes. *)
Definition bytearray (n : nat) : bytes := replicate n 0.

(** Every element is a byte. *)
Definition is_bytes (b : bytes) : Prop := Forall (fun x => 0 <= x < 256) b.

(** [bytes(l)] for a list of integers [l]: [ValueError] unless every element
    is in [range(256)]. *)
Definition bytes_of_ints (l : list Z) : res bytes :=
  if forallb (fun x => (0 <=? x) && (x <? 256)) l then Ok l else Raise ValueError.

(** The [size] big-endian base-256 digits of [v], most significant first. *)
Fixpoint be_bytes (size : nat) (v : Z) : bytes :=
  match size with
  | O => []
  | S k => (v / 256 ^ Z.of_nat k) mod 256 :: be_bytes k v
  end.

(** The unsigned integer a big-endian byte string denotes. *)
Definition be_value (b : bytes) : Z := fold_left (fun acc x => acc * 256 + x) b 0.

(** The two [struct] formats the client uses: ['>H'] (unsigned 16-bit,
    big-endian) and ['>I'] (unsigned 32-bit, big-endian). *)
Inductive struct_format : Type :=
| fmt_H
| fmt_I.

Definition calcsize (f : struct_format) : nat :=
  match f with
  | fmt_H => 2%nat
  | fmt_I => 4%nat
  end.

(** [struct.pack(fmt, v)]: [struct.error] when [v] does not fit the format. *)
Definition struct_pack (f : struct_format) (v : Z) : res bytes :=
  if (0 <=? v) && (v <? 256 ^ Z.of_nat (calcsize f))
  then Ok (be_bytes (calcsize f) v)
  else Raise StructError.

(** [struct.pack_into(fmt, buffer, offset, v)]: overwrites [calcsize fmt]
    bytes of [buffer] from [offset] on; [struct.error] when the buffer is too
    short for that or [v] does not fit. *)
Definition struct_pack_into (f : struct_format) (buffer : bytes) (offset : nat) (v : Z)
  : res bytes :=
  if (offset + calcsize f <=? length buffer)%nat
  then res_bind (struct_pack f v)
         (fun packed => Ok (take offset buffer ++ packed ++ drop (offset + calcsize f) buffer))
  else Raise StructError.

(** Twelve bytes laid out as an RTP header: the two constant bytes, then
    a 16-bit and two 32-bit fields, big-endian. *)
Definition header_fields (seq ts src : Z) : bytes :=
  [0x80; 0x78] ++ be_bytes 2 seq ++ be_bytes 4 ts ++ be_bytes 4 src.

(** [buffer[:k] = new] on a bytearray: the first [k] bytes are replaced by
    [new], whatever the length of [new]. *)
Definition assign_prefix (buffer : bytes) (k : nat) (new : bytes) : bytes :=
  new ++ drop k buffer.

(** ** Strings *)

(** The index just past the last occurrence of the one-character separator
    [sep] in [s], if it occurs: [Some (length head + 1)]. *)
Fixpoint rfind_after (sep : ascii) (s : string) : option nat :=
  match s with
  | EmptyString => None
  | String c rest =>
      match rfind_after sep rest with
      | Some k => Some (S k)
      | None => if Ascii.eqb c sep then Some 1%nat else None
      end
  end.

(** [s.rpartition(sep)] for a one-character [sep]: the part before the last
    occurrence, the separator and the part after it; [('', '', s)] when [sep]
    does not occur. *)
Definition rpartition (s : string) (sep : ascii) : string * string * string :=
  match rfind_after sep s with
  | Some k =>
      (substring 0 (k - 1)%nat s, String sep EmptyString, substring k (String.length s - k)%nat s)
  | None => (EmptyString, EmptyString, s)
  end.

(** [s.startswith(p)]. *)
Definition startswith (s p : string) : bool := String.prefix p s.

(** [s[k:]]. *)
Definition slice_from (k : nat) (s : string) : string :=
  substring k (String.length s - k)%nat s.

(** ** Python values *)

(** A value of a JSON payload or of keyword arguments. *)
Inductive pyval : Type :=
| PyNone
| PyStr (s : string)
| PyInt (z : Z).

(** An argument checked with [isinstance(x, T)]: an instance of [T], or an
    object of some other class. *)
Inductive pyobj (T : Type) : Type :=
| Instance (t : T)
| NotInstance (class_name : string).

Arguments Instance {T} t.
Arguments NotInstance {T} class_name.

(** Severity of a record handed to the module's logger [_log]. *)
Inductive level : Type :=
| INFO
| WARNING
| ERROR.

(** What the client does to the outside that no attribute records: a record
    written to the logger (its format string and integer arguments), and a
    close request sent to the voice websocket with its code. *)
Inductive Effect : Type :=
| Log (lvl : level) (msg : string) (args : list Z)
| WsClose (code : Z).

(** A non-blocking datagram socket, as [on_voice_server_update] opens one. *)
Record Socket : Type := { blocking : bool }.

(** [socket.socket(socket.AF_INET, socket.SOCK_DGRAM)]: sockets start blocking. *)
Definition socket_socket : Socket := {| blocking := true |}.

Definition setblocking (flag : bool) (_ : Socket) : Socket := {| blocking := flag |}.

(** ** Log messages *)

Definition awaiting_endpoint_message : string :=
  "Awaiting endpoint... This requires waiting. If timeout occurred considering raising the timeout and reconnecting.".

Definition cleanup_in_progress_message : string :=
  "Cleanup is still in progress for the last call to listen and so errors may occur. It is recommended to use wait_for_listen_ready before calling listen unless you know what you're doing.".

Definition packet_dropped_message : string :=
  "A packet has been dropped (seq: %s, timestamp: %s)".

(** ** External collaborators

    The code of these lives outside [voice_client.py]; the client only calls
    them.  Each is an interface the client is parameterised by. *)

(** PyNaCl: [nacl.secret.SecretBox] and [nacl.utils.random].
    [SecretBox key] is the constructor, [box_encrypt b plaintext nonce] is
    [b.encrypt(plaintext, nonce).ciphertext], and [nacl_random i size] is the
    result of the [i]-th call of [nacl.utils.random] in this process, made
    with [size]: it always has [size] bytes. *)
Class SecretBoxCapability : Type := {
  secret_box : Type;
  SecretBox : bytes -> res secret_box;
  box_encrypt : secret_box -> bytes -> bytes -> res bytes;
  nacl_random : nat -> nat -> bytes;
  nacl_random_length : forall i size, length (nacl_random i size) = size
}.

(** [nacl.secret.SecretBox.NONCE_SIZE]. *)
Definition NONCE_SIZE : nat := 24.

(** The Opus codec ([discord/opus.py]): the state of the native library
    [opus_lib], [opus.Decoder.get_opus_version()] (which loads the library on
    demand and raises [OpusNotLoaded] when it cannot), the class constant
    [opus.Encoder.SAMPLES_PER_FRAME], and the type of [expected_packet_loss]. *)
Class CodecCapability : Type := {
  opus_lib : Type;
  float : Type;
  get_opus_version : opus_lib -> res string * opus_lib;
  SAMPLES_PER_FRAME : Z
}.

(** The keyword arguments [play] hands to [opus.Encoder]. *)
Record EncoderConfig `{CodecCapability} : Type := {
  application : string;
  bitrate : Z;
  fec : bool;
  expected_packet_loss : float;
  bandwidth : string;
  signal_type : string
}.

(** An encoder remembers the configuration it was built with. *)
Record Encoder `{CodecCapability} : Type := { encoder_config : EncoderConfig }.

(** [encoder.encode(pcm, frame_size)]. *)
Class EncodeCapability `{CodecCapability} : Type := {
  encode : Encoder -> bytes -> Z -> res bytes
}.

(** The audio player and its sources ([discord/player.py]):
    [AudioPlayer(source, client, after=after)], and the player's [start],
    [stop], [is_playing] and [is_paused]. *)
Class PlayerCapability : Type := {
  callback : Type;
  AudioSource : Type;
  is_opus : AudioSource -> bool;
  AudioPlayer : Type;
  AudioPlayer_new : AudioSource -> option callback -> res AudioPlayer;
  player_start : AudioPlayer -> AudioPlayer;
  player_stop : AudioPlayer -> AudioPlayer;
  player_is_playing : AudioPlayer -> bool;
  player_is_paused : AudioPlayer -> bool
}.

(** The audio receiver and its sinks ([discord/sink.py]):
    [AudioReceiver(client)], and the receiver's [start], [stop],
    [start_listening], [is_on_standby] and [is_cleaning]. *)
Class ReceiverCapability `{PlayerCapability} : Type := {
  AudioSink : Type;
  AudioReceiver : Type;
  AudioReceiver_new : AudioReceiver;
  receiver_start : AudioReceiver -> AudioReceiver;
  receiver_stop : AudioReceiver -> AudioReceiver;
  start_listening :
    AudioSink -> bool -> option callback -> gmap string pyval ->
    AudioReceiver -> res unit * AudioReceiver;
  is_on_standby : AudioReceiver -> bool;
  is_cleaning : AudioReceiver -> bool
}.

(** The connection state machine ([discord/voice_state.py]) the client
    delegates to: [VoiceConnectionState(client)], the attributes the client's
    properties read, and the methods it calls.  A method takes the state
    before the call and gives the outcome and the state after it. *)
Class ConnectionCapability : Type := {
  VoiceConnectionState : Type;
  VoiceConnectionState_new : VoiceConnectionState;
  conn_session_id : VoiceConnectionState -> option string;
  conn_token : VoiceConnectionState -> option string;
  conn_endpoint : VoiceConnectionState -> option string;
  conn_ssrc : VoiceConnectionState -> Z;
  conn_mode : VoiceConnectionState -> string;
  conn_secret_key : VoiceConnectionState -> list Z;
  conn_is_connected : VoiceConnectionState -> bool;
  conn_voice_server_update :
    gmap string pyval -> VoiceConnectionState -> res unit * VoiceConnectionState;
  conn_disconnect : bool -> VoiceConnectionState -> res unit * VoiceConnectionState;
  conn_send_packet : bytes -> VoiceConnectionState -> res unit * VoiceConnectionState
}.

(** The library client's process-wide state ([discord/state.py]) and the
    channel connected to: the key the channel registers a voice client under,
    the removal of a registration, and whether the audio processing pool was
    initialised.  [py_int] is Python's built-in [int] on a payload value. *)
Class ClientCapability : Type := {
  ConnectionState : Type;
  Channel : Type;
  _get_voice_client_key : Channel -> Z * string;
  _remove_voice_client : Z -> ConnectionState -> ConnectionState;
  state_is_audio_process_pool_initialized : ConnectionState -> bool;
  py_int : pyval -> res Z
}.

Section Model.

Context {nacl : SecretBoxCapability} {codec : CodecCapability} {enc : EncodeCapability}.
Context {player : PlayerCapability} {receiver : ReceiverCapability}.
Context {conn : ConnectionCapability} {client : ClientCapability}.

(** ** The client object *)

(** The attributes of a [VoiceClient] the modelled methods read or write.
    [None] in [server_id], [socket] and [encoder] is the sentinel [MISSING].
    [__init__] assigns no value to [endpoint_ip], [_connected],
    [_handshaking] and [_voice_server_complete]: there [None] says the
    attribute does not exist, and reading it raises [AttributeError].
    [client], [loop] and [decoders] are read by no modelled method and are
    left out; [_state] is the process-wide state, kept in the world. *)
Record VoiceClient : Type := {
  channel : Channel;
  server_id : option Z;
  socket : option Socket;
  sequence : Z;
  timestamp : Z;
  _player : option AudioPlayer;
  _receiver : option AudioReceiver;
  encoder : option Encoder;
  _lite_nonce : Z;
  _connection : VoiceConnectionState;
  endpoint_ip : option (option string);
  _connected : option bool;
  _handshaking : option bool;
  _voice_server_complete : option bool
}.

(** Attribute assignment, one function per assigned attribute. *)
Definition set_server_id (v : option Z) (s : VoiceClient) : VoiceClient :=
  {| channel := channel s; server_id := v; socket := socket s; sequence := sequence s;
     timestamp := timestamp s; _player := _player s; _receiver := _receiver s;
     encoder := encoder s; _lite_nonce := _lite_nonce s; _connection := _connection s;
     endpoint_ip := endpoint_ip s; _connected := _connected s;
     _handshaking := _handshaking s;
     _voice_server_complete := _voice_server_complete s |}.

Definition set_socket (v : option Socket) (s : VoiceClient) : VoiceClient :=
  {| channel := channel s; server_id := server_id s; socket := v; sequence := sequence s;
     timestamp := timestamp s; _player := _player s; _receiver := _receiver s;
     encoder := encoder s; _lite_nonce := _lite_nonce s; _connection := _connection s;
     endpoint_ip := endpoint_ip s; _connected := _connected s;
     _handshaking := _handshaking s;
     _voice_server_complete := _voice_server_complete s |}.

Definition set_sequence (v : Z) (s : VoiceClient) : VoiceClient :=
  {| channel := channel s; server_id := server_id s; socket := socket s; sequence := v;
     timestamp := timestamp s; _player := _player s; _receiver := _receiver s;
     encoder := encoder s; _lite_nonce := _lite_nonce s; _connection := _connection s;
     endpoint_ip := endpoint_ip s; _connected := _connected s;
     _handshaking := _handshaking s;
     _voice_server_complete := _voice_server_complete s |}.

Definition set_timestamp (v : Z) (s : VoiceClient) : VoiceClient :=
  {| channel := channel s; server_id := server_id s; socket := socket s;
     sequence := sequence s; timestamp := v; _player := _player s;
     _receiver := _receiver s; encoder := encoder s; _lite_nonce := _lite_nonce s;
     _connection := _connection s; endpoint_ip := endpoint_ip s;
     _connected := _connected s; _handshaking := _handshaking s;
     _voice_server_complete := _voice_server_complete s |}.

Definition set__player (v : option AudioPlayer) (s : VoiceClient) : VoiceClient :=
  {| channel := channel s; server_id := server_id s; socket := socket s;
     sequence := sequence s; timestamp := timestamp s; _player := v;
     _receiver := _receiver s; encoder := encoder s; _lite_nonce := _lite_nonce s;
     _connection := _connection s; endpoint_ip := endpoint_ip s;
     _connected := _connected s; _handshaking := _handshaking s;
     _voice_server_complete := _voice_server_complete s |}.

Definition set__receiver (v : option AudioReceiver) (s : VoiceClient) : VoiceClient :=
  {| channel := channel s; server_id := server_id s; socket := socket s;
     sequence := sequence s; timestamp := timestamp s; _player := _player s;
     _receiver := v; encoder := encoder s; _lite_nonce := _lite_nonce s;
     _connection := _connection s; endpoint_ip := endpoint_ip s;
     _connected := _connected s; _handshaking := _handshaking s;
     _voice_server_complete := _voice_server_complete s |}.

Definition set_encoder (v : option Encoder) (s : VoiceClient) : VoiceClient :=
  {| channel := channel s; server_id := server_id s; socket := socket s;
     sequence := sequence s; timestamp := timestamp s; _player := _player s;
     _receiver := _receiver s; encoder := v; _lite_nonce := _lite_nonce s;
     _connection := _connection s; endpoint_ip := endpoint_ip s;
     _connected := _connected s; _handshaking := _handshaking s;
     _voice_server_complete := _voice_server_complete s |}.

Definition set__lite_nonce (v : Z) (s : VoiceClient) : VoiceClient :=
  {| channel := channel s; server_id := server_id s; socket := socket s;
     sequence := sequence s; timestamp := timestamp s; _player := _player s;
     _receiver := _receiver s; encoder := encoder s; _lite_nonce := v;
     _connection := _connection s; endpoint_ip := endpoint_ip s;
     _connected := _connected s; _handshaking := _handshaking s;
     _voice_server_complete := _voice_server_complete s |}.

Definition set__connection (v : VoiceConnectionState) (s : VoiceClient) : VoiceClient :=
  {| channel := channel s; server_id := server_id s; socket := socket s;
     sequence := sequence s; timestamp := timestamp s; _player := _player s;
     _receiver := _receiver s; encoder := encoder s; _lite_nonce := _lite_nonce s;
     _connection := v; endpoint_ip := endpoint_ip s; _connected := _connected s;
     _handshaking := _handshaking s;
     _voice_server_complete := _voice_server_complete s |}.

Definition set_endpoint_ip (v : option (option string)) (s : VoiceClient) : VoiceClient :=
  {| channel := channel s; server_id := server_id s; socket := socket s;
     sequence := sequence s; timestamp := timestamp s; _player := _player s;
     _receiver := _receiver s; encoder := encoder s; _lite_nonce := _lite_nonce s;
     _connection := _connection s; endpoint_ip := v; _connected := _connected s;
     _handshaking := _handshaking s;
     _voice_server_complete := _voice_server_complete s |}.

Definition set__connected (v : option bool) (s : VoiceClient) : VoiceClient :=
  {| channel := channel s; server_id := server_id s; socket := socket s;
     sequence := sequence s; timestamp := timestamp s; _player := _player s;
     _receiver := _receiver s; encoder := encoder s; _lite_nonce := _lite_nonce s;
     _connection := _connection s; endpoint_ip := endpoint_ip s; _connected := v;
     _handshaking := _handshaking s;
     _voice_server_complete := _voice_server_complete s |}.

Definition set__voice_server_complete (v : option bool) (s : VoiceClient) : VoiceClient :=
  {| channel := channel s; server_id := server_id s; socket := socket s;
     sequence := sequence s; timestamp := timestamp s; _player := _player s;
     _receiver := _receiver s; encoder := encoder s; _lite_nonce := _lite_nonce s;
     _connection := _connection s; endpoint_ip := endpoint_ip s;
     _connected := _connected s; _handshaking := _handshaking s;
     _voice_server_complete := v |}.

(** The world a method runs in: the client object, the process-wide state it
    shares with the library client ([self._state]), the state of the Opus
    library, how often [nacl.utils.random] was called, and the effects so far,
    oldest first. *)
Record World : Type := {
  self : VoiceClient;
  state : ConnectionState;
  opus : opus_lib;
  random_calls : nat;
  effects : list Effect
}.

Definition set_self (v : VoiceClient) (w : World) : World :=
  {| self := v; state := state w; opus := opus w; random_calls := random_calls w;
     effects := effects w |}.

Definition set_state (v : ConnectionState) (w : World) : World :=
  {| self := self w; state := v; opus := opus w; random_calls := random_calls w;
     effects := effects w |}.

Definition set_opus (v : opus_lib) (w : World) : World :=
  {| self := self w; state := state w; opus := v; random_calls := random_calls w;
     effects := effects w |}.

Definition set_random_calls (v : nat) (w : World) : World :=
  {| self := self w; state := state w; opus := opus w; random_calls := v;
     effects := effects w |}.

Definition set_effects (v : list Effect) (w : World) : World :=
  {| self := self w; state := state w; opus := opus w; random_calls := random_calls w;
     effects := v |}.

(** ** Reading and writing the world *)

Definition get_self : M World VoiceClient := fun w => (Ok (self w), w).

Definition modify_self (f : VoiceClient -> VoiceClient) : M World unit :=
  modify (fun w => set_self (f (self w)) w).

(** A call of a method of [self._connection]. *)
Definition on_connection {A : Type}
  (f : VoiceConnectionState -> res A * VoiceConnectionState) : M World A :=
  fun w =>
    let (r, c) := f (_connection (self w)) in
    (r, set_self (set__connection c (self w)) w).

Definition emit (e : Effect) : M World unit :=
  modify (fun w => set_effects (effects w ++ [e]) w).

(** [_log.info], [_log.warning]. *)
Definition _log (lvl : level) (msg : string) (args : list Z) : M World unit :=
  emit (Log lvl msg args).

(** [nacl.utils.random(size)]: the next draw of the process. *)
Definition nacl_utils_random (size : nat) : M World bytes :=
  fun w => (Ok (nacl_random (random_calls w) size), set_random_calls (S (random_calls w)) w).

(** [opus.Decoder.get_opus_version()]. *)
Definition opus_get_opus_version : M World string :=
  fun w => let (r, o) := get_opus_version (opus w) in (r, set_opus o w).

(** [data[key]] on a payload. *)
Definition getitem (data : gmap string pyval) (key : string) : M World pyval :=
  match data !! key with
  | Some v => ret v
  | None => raise KeyError
  end.

(** ** Properties (lines 261-291)

    Each reads an attribute of [self._connection]; none has a setter. *)

Definition session_id (s : VoiceClient) : option string := conn_session_id (_connection s).
Definition token (s : VoiceClient) : option string := conn_token (_connection s).
Definition endpoint (s : VoiceClient) : option string := conn_endpoint (_connection s).
Definition ssrc (s : VoiceClient) : Z := conn_ssrc (_connection s).
Definition mode (s : VoiceClient) : string := conn_mode (_connection s).
Definition secret_key (s : VoiceClient) : list Z := conn_secret_key (_connection s).

(** [self.token = v] and [self.endpoint = v]: the class defines [token] and
    [endpoint] as properties with a getter only, so the assignment raises
    [AttributeError] and stores nothing. *)
Definition assign_token (v : pyval) : M World unit := raise AttributeError.
Definition assign_endpoint (v : string) : M World unit := raise AttributeError.

(** ** [__init__] (lines 223-242)

    [has_nacl] is the module-level flag set by the import of PyNaCl. *)

Definition create_connection_state : VoiceConnectionState := VoiceConnectionState_new.

Definition __init__ (has_nacl : bool) (chan : Channel) : res VoiceClient :=
  if negb has_nacl then Raise RuntimeError
  else
    Ok {| channel := chan; server_id := None; socket := None;
          sequence := 0; timestamp := 0; _player := None; _receiver := None;
          encoder := None; _lite_nonce := 0;
          _connection := create_connection_state;
          endpoint_ip := None; _connected := None; _handshaking := None;
          _voice_server_complete := None |}.

(** ** [checked_add] (lines 293-298)

    The method is called with three attribute names only: ['sequence'],
    ['timestamp'] and ['_lite_nonce']. *)

Inductive counter_attr : Type :=
| attr_sequence
| attr_timestamp
| attr__lite_nonce.

Definition getattr (s : VoiceClient) (attr : counter_attr) : Z :=
  match attr with
  | attr_sequence => sequence s
  | attr_timestamp => timestamp s
  | attr__lite_nonce => _lite_nonce s
  end.

Definition setattr (s : VoiceClient) (attr : counter_attr) (v : Z) : VoiceClient :=
  match attr with
  | attr_sequence => set_sequence v s
  | attr_timestamp => set_timestamp v s
  | attr__lite_nonce => set__lite_nonce v s
  end.

Definition checked_add (s : VoiceClient) (attr : counter_attr) (value limit : Z)
  : VoiceClient :=
  let val := getattr s attr in
  if val + value >? limit then setattr s attr 0
  else setattr s attr (val + value).

(** ** The packet codec (lines 438-471) *)

(** [box = nacl.secret.SecretBox(bytes(self.secret_key))]. *)
Definition make_box : M World secret_box :=
  let* s := get_self in
  let* key := lift_res (bytes_of_ints (secret_key s)) in
  lift_res (SecretBox key).

Definition _encrypt_xsalsa20_poly1305 (header data : bytes) : M World bytes :=
  let* box := make_box in
  let nonce := bytearray 24 in
  let nonce := assign_prefix nonce 12 header in
  let* ciphertext := lift_res (box_encrypt box data nonce) in
  ret (header ++ ciphertext).

Definition _encrypt_xsalsa20_poly1305_suffix (header data : bytes) : M World bytes :=
  let* box := make_box in
  let* nonce := nacl_utils_random NONCE_SIZE in
  let* ciphertext := lift_res (box_encrypt box data nonce) in
  ret (header ++ ciphertext ++ nonce).

Definition _encrypt_xsalsa20_poly1305_lite (header data : bytes) : M World bytes :=
  let* box := make_box in
  let nonce := bytearray 24 in
  let* s := get_self in
  let* packed := lift_res (struct_pack fmt_I (_lite_nonce s)) in
  let nonce := assign_prefix nonce 4 packed in
  modify_self (fun s => checked_add s attr__lite_nonce 1 4294967295) ;;;
  let* ciphertext := lift_res (box_encrypt box data nonce) in
  ret (header ++ ciphertext ++ take 4 nonce).

(** [getattr(self, name)] for the name of an encryption method. *)
Definition getattr_encrypt (name : string) : res (bytes -> bytes -> M World bytes) :=
  if String.eqb name "_encrypt_xsalsa20_poly1305" then Ok _encrypt_xsalsa20_poly1305
  else if String.eqb name "_encrypt_xsalsa20_poly1305_suffix"
  then Ok _encrypt_xsalsa20_poly1305_suffix
  else if String.eqb name "_encrypt_xsalsa20_poly1305_lite"
  then Ok _encrypt_xsalsa20_poly1305_lite
  else Raise AttributeError.

(** The RTP header [_get_voice_packet] builds (lines 439-446). *)
Definition rtp_header (s : VoiceClient) : res bytes :=
  let header := bytearray 12 in
  let header := <[0%nat := 0x80]> header in
  let header := <[1%nat := 0x78]> header in
  res_bind (struct_pack_into fmt_H header 2 (sequence s)) (fun header =>
  res_bind (struct_pack_into fmt_I header 4 (timestamp s)) (fun header =>
  struct_pack_into fmt_I header 8 (ssrc s))).

Definition _get_voice_packet (data : bytes) : M World bytes :=
  let* s := get_self in
  let* header := lift_res (rtp_header s) in
  let* encrypt_packet := lift_res (getattr_encrypt ("_encrypt_" ++ mode s)%string) in
  encrypt_packet header data.

(** ** Connection (lines 308-340, 400-409, 432-434) *)

Definition is_connected (s : VoiceClient) : bool := conn_is_connected (_connection s).

(** [self.ws.close(4000)]: a close request to the voice websocket. *)
Definition ws_close (code : Z) : M World unit := emit (WsClose code).

Definition on_voice_server_update (data : gmap string pyval) : M World unit :=
  on_connection (conn_voice_server_update data) ;;;
  let* tok := getitem data "token" in
  assign_token tok ;;;
  let* guild_id := getitem data "guild_id" in
  let* guild_id := lift_res (py_int guild_id) in
  modify_self (set_server_id (Some guild_id)) ;;;
  let endpoint_value := default PyNone (data !! "endpoint") in
  let* s := get_self in
  match endpoint_value, token s with
  | PyNone, _ | _, None =>
      _log WARNING awaiting_endpoint_message []
  | PyInt _, Some _ => raise AttributeError
  | PyStr ep, Some _ =>
      assign_endpoint (rpartition ep ":"%char).1.1 ;;;
      let* s := get_self in
      match endpoint s with
      | None => raise AttributeError
      | Some e => if startswith e "wss://" then assign_endpoint (slice_from 6 e) else ret tt
      end ;;;
      modify_self (set_endpoint_ip (Some None)) ;;;
      modify_self (set_socket (Some socket_socket)) ;;;
      modify_self (set_socket (Some (setblocking false socket_socket))) ;;;
      modify_self (set__receiver (Some AudioReceiver_new)) ;;;
      modify_self (set__receiver (Some (receiver_start AudioReceiver_new))) ;;;
      let* s := get_self in
      match _handshaking s with
      | None => raise AttributeError
      | Some false => ws_close 4000
      | Some true =>
          match _voice_server_complete s with
          | None => raise AttributeError
          | Some _ => modify_self (set__voice_server_complete (Some true))
          end
      end
  end.

(** [stop] (lines 575-579). *)
Definition stop : M World unit :=
  let* s := get_self in
  match _player s with
  | Some p =>
      modify_self (set__player (Some (player_stop p))) ;;;
      modify_self (set__player None)
  | None => ret tt
  end.

(** [VoiceProtocol.cleanup] (lines 182-193). *)
Definition cleanup : M World unit :=
  let* s := get_self in
  let key_id := (_get_voice_client_key (channel s)).1 in
  modify (fun w => set_state (_remove_voice_client key_id (state w)) w).

Definition disconnect (force : bool) : M World unit :=
  stop ;;;
  on_connection (conn_disconnect force) ;;;
  cleanup ;;;
  let* s := get_self in
  match _receiver s with
  | None => raise AttributeError
  | Some r => modify_self (set__receiver (Some (receiver_stop r)))
  end ;;;
  let* s := get_self in
  match _connected s with
  | None => raise AttributeError
  | Some _ => modify_self (set__connected (Some false))
  end.

(** ** Playing (lines 473-589) *)

Definition mem_string (x : string) (l : list string) : bool := existsb (String.eqb x) l.

(** Modelled from the spec: the constructor of [opus.Encoder], whose code
    ([discord/opus.py]) is not among the sources.  The spec has the encoder
    built from the application profile, a bitrate of 16 to 512, the
    forward-error-correction flag with the expected loss, the bandpass and
    the signal-type hint, an invalid value failing with a configuration error
    ([ValueError] in [play]'s docstring, which also lists the profiles,
    bandpasses and signal types); it gives no range for the expected loss,
    which is not checked here.  The native library is needed after that and
    its absence is the codec-unavailable error ([OpusNotLoaded]). *)
Definition opus_Encoder (cfg : EncoderConfig) : M World Encoder :=
  if negb (mem_string (application cfg) ["audio"; "voip"; "lowdelay"])
  then raise ValueError
  else if negb ((16 <=? bitrate cfg) && (bitrate cfg <=? 512))
  then raise ValueError
  else if negb (mem_string (bandwidth cfg) ["narrow"; "medium"; "wide"; "superwide"; "full"])
  then raise ValueError
  else if negb (mem_string (signal_type cfg) ["auto"; "voice"; "music"])
  then raise ValueError
  else
    opus_get_opus_version ;;;
    ret {| encoder_config := cfg |}.

Definition is_playing (s : VoiceClient) : bool :=
  match _player s with
  | Some p => player_is_playing p
  | None => false
  end.

Definition is_paused (s : VoiceClient) : bool :=
  match _player s with
  | Some p => player_is_paused p
  | None => false
  end.

Definition play (source : pyobj AudioSource) (after : option callback)
  (cfg : EncoderConfig) : M World unit :=
  let* s := get_self in
  if negb (is_connected s) then raise ClientException
  else if is_playing s then raise ClientException
  else
    match source with
    | NotInstance _ => raise TypeError
    | Instance src =>
        (if negb (is_opus src)
         then let* enc := opus_Encoder cfg in modify_self (set_encoder (Some enc))
         else ret tt) ;;;
        let* player := lift_res (AudioPlayer_new src after) in
        modify_self (set__player (Some player)) ;;;
        modify_self (set__player (Some (player_start player)))
    end.

(** ** Listening (lines 591-707) *)

Definition is_audio_process_pool_initialized (w : World) : bool :=
  state_is_audio_process_pool_initialized (state w).

Definition is_listen_receiving (s : VoiceClient) : bool :=
  match _receiver s with
  | Some r => negb (is_on_standby r)
  | None => false
  end.

Definition is_listen_cleaning (s : VoiceClient) : bool :=
  match _receiver s with
  | Some r => is_cleaning r
  | None => false
  end.

(** [self._receiver.start_listening(sink, decode=..., after=..., after_kwargs=...)]. *)
Definition receiver_start_listening (sink : AudioSink) (decode : bool)
  (after : option callback) (kwargs : gmap string pyval) : M World unit :=
  fun w =>
    match _receiver (self w) with
    | None => (Raise AttributeError, w)
    | Some r =>
        let (out, r') := start_listening sink decode after kwargs r in
        (out, set_self (set__receiver (Some r') (self w)) w)
    end.

Definition listen (sink : pyobj AudioSink) (decode supress_warning : bool)
  (after : option callback) (kwargs : gmap string pyval) : M World unit :=
  let* w := get_world in
  let s := self w in
  if negb (is_connected s) then raise ClientException
  else if is_listen_receiving s then raise ClientException
  else
    match sink with
    | NotInstance _ => raise TypeError
    | Instance snk =>
        if negb (is_audio_process_pool_initialized w) then raise ClientException
        else
          (if negb supress_warning && is_listen_cleaning s
           then _log WARNING cleanup_in_progress_message []
           else ret tt) ;;;
          (if decode then opus_get_opus_version ;;; ret tt else ret tt) ;;;
          receiver_start_listening snk decode after kwargs
    end.

(** ** Sending (lines 751-782) *)

(** [self.encoder.encode(data, self.encoder.SAMPLES_PER_FRAME)]. *)
Definition encoder_encode (data : bytes) : M World bytes :=
  let* s := get_self in
  match encoder s with
  | None => raise AttributeError
  | Some enc => lift_res (encode enc data SAMPLES_PER_FRAME)
  end.

Definition send_audio_packet (data : bytes) (encode_flag : bool) : M World unit :=
  modify_self (fun s => checked_add s attr_sequence 1 65535) ;;;
  let* encoded_data := (if encode_flag then encoder_encode data else ret data) in
  let* packet := _get_voice_packet encoded_data in
  try_except
    (on_connection (conn_send_packet packet))
    OSError
    (let* s := get_self in
     _log INFO packet_dropped_message [sequence s; timestamp s]) ;;;
  modify_self (fun s => checked_add s attr_timestamp SAMPLES_PER_FRAME 4294967295).

(** What building a packet may change: the lite nonce and the count of
    random draws, nothing else. *)
Definition packet_frame (w w' : World) : Prop :=
  exists lite draws,
    w' = set_random_calls draws (set_self (set__lite_nonce lite (self w)) w).

End Model.

(** ** A small environment to run the model in

    One instance of each interface, simple enough to evaluate: the secret box
    prepends a 16-byte tag of zeros to the plaintext, the connection records
    what it sent and fails to send while its link is down, and the
    process-wide state is the set of registered keys with the pool flag. *)

Definition simple_nacl : SecretBoxCapability :=
  {| secret_box := bytes;
     SecretBox := fun key => if (length key =? 32)%nat then Ok key else Raise ValueError;
     box_encrypt := fun _ plaintext nonce =>
       if (length nonce =? 24)%nat then Ok (replicate 16 0 ++ plaintext)
       else Raise ValueError;
     nacl_random := fun i size => replicate size (Z.of_nat i mod 256);
     nacl_random_length := fun i size => length_replicate size (Z.of_nat i mod 256) |}.

Definition simple_codec : CodecCapability :=
  {| opus_lib := bool;
     float := Z;
     get_opus_version := fun loaded =>
       if loaded then (Ok "libopus 1.3", loaded) else (Raise OpusNotLoaded, loaded);
     SAMPLES_PER_FRAME := 960 |}.

Definition simple_enc : @EncodeCapability simple_codec :=
  {| encode := fun _ data _ => Ok data |}.

Definition simple_player : PlayerCapability :=
  {| callback := unit;
     AudioSource := bool;
     is_opus := fun src => src;
     AudioPlayer := bool;
     AudioPlayer_new := fun _ _ => Ok false;
     player_start := fun _ => true;
     player_stop := fun _ => false;
     player_is_playing := fun p => p;
     player_is_paused := fun _ => false |}.

(** A receiver is its pair of flags (on standby, cleaning). *)
Definition simple_receiver : @ReceiverCapability simple_player :=
  {| AudioSink := unit;
     AudioReceiver := bool * bool;
     AudioReceiver_new := (true, false);
     receiver_start := fun r => r;
     receiver_stop := fun r => (true, r.2);
     start_listening := fun _ _ _ _ r => (Ok tt, (false, r.2));
     is_on_standby := fun r => r.1;
     is_cleaning := fun r => r.2 |}.

Record SimpleConnection : Type := {
  sc_session_id : option string;
  sc_token : option string;
  sc_endpoint : option string;
  sc_ssrc : Z;
  sc_mode : string;
  sc_secret_key : list Z;
  sc_connected : bool;
  sc_link_up : bool;
  sc_sent : list bytes
}.

Definition simple_conn : ConnectionCapability :=
  {| VoiceConnectionState := SimpleConnection;
     VoiceConnectionState_new :=
       {| sc_session_id := None; sc_token := None; sc_endpoint := None; sc_ssrc := 0;
          sc_mode := ""; sc_secret_key := []; sc_connected := false; sc_link_up := true;
          sc_sent := [] |};
     conn_session_id := sc_session_id;
     conn_token := sc_token;
     conn_endpoint := sc_endpoint;
     conn_ssrc := sc_ssrc;
     conn_mode := sc_mode;
     conn_secret_key := sc_secret_key;
     conn_is_connected := sc_connected;
     conn_voice_server_update := fun _ c => (Ok tt, c);
     conn_disconnect := fun _ c =>
       (Ok tt,
        {| sc_session_id := sc_session_id c; sc_token := sc_token c;
           sc_endpoint := sc_endpoint c; sc_ssrc := sc_ssrc c; sc_mode := sc_mode c;
           sc_secret_key := sc_secret_key c; sc_connected := false;
           sc_link_up := sc_link_up c; sc_sent := sc_sent c |});
     conn_send_packet := fun packet c =>
       if sc_link_up c
       then (Ok tt,
             {| sc_session_id := sc_session_id c; sc_token := sc_token c;
                sc_endpoint := sc_endpoint c; sc_ssrc := sc_ssrc c; sc_mode := sc_mode c;
                sc_secret_key := sc_secret_key c; sc_connected := sc_connected c;
                sc_link_up := sc_link_up c; sc_sent := sc_sent c ++ [packet] |})
       else (Raise OSError, c) |}.

Definition simple_client : ClientCapability :=
  {| ConnectionState := gset Z * bool;
     Channel := Z;
     _get_voice_client_key := fun chan => (chan, "guild_id");
     _remove_voice_client := fun key st => (st.1 ∖ {[key]}, st.2);
     state_is_audio_process_pool_initialized := fun st => st.2;
     py_int := fun v =>
       match v with
       | PyInt z => Ok z
       | PyStr _ => Raise ValueError
       | PyNone => Raise TypeError
       end |}.

(** A connected session of the small environment: SSRC 12345, the given
    mode, a 32-byte key, and a link that is up or down. *)
Definition simple_session (mode_name : string) (link_up : bool) : SimpleConnection :=
  {| sc_session_id := Some "session"; sc_token := Some "token";
     sc_endpoint := Some "voice.example"; sc_ssrc := 12345; sc_mode := mode_name;
     sc_secret_key := replicate 32 7; sc_connected := true; sc_link_up := link_up;
     sc_sent := [] |}.

(** A client of the small environment with the given counters and session,
    with no player, receiver or encoder. *)
Definition simple_voice_client (seq ts lite : Z) (c : SimpleConnection)
  : @VoiceClient simple_codec simple_player simple_receiver simple_conn simple_client :=
  @Build_VoiceClient simple_codec simple_player simple_receiver simple_conn simple_client
    1 None None seq ts None None None lite c None None None None.

Definition simple_world
  (s : @VoiceClient simple_codec simple_player simple_receiver simple_conn simple_client)
  : @World simple_codec simple_player simple_receiver simple_conn simple_client :=
  @Build_World simple_codec simple_player simple_receiver simple_conn simple_client
    s ({[1]}, true) true 0%nat [].

(** The same world before [init_audio_processing_pool] was called. *)
Definition simple_world_without_pool
  (s : @VoiceClient simple_codec simple_player simple_receiver simple_conn simple_client)
  : @World simple_codec simple_player simple_receiver simple_conn simple_client :=
  @Build_World simple_codec simple_player simple_receiver simple_conn simple_client
    s ({[1]}, false) true 0%nat [].

(** A connected client of the small environment with a receiver that is on
    standby and whose cleaning flag is as given. *)
Definition simple_listener (cleaning : bool)
  : @VoiceClient simple_codec simple_player simple_receiver simple_conn simple_client :=
  @Build_VoiceClient simple_codec simple_player simple_receiver simple_conn simple_client
    1 None None 0 0 None (Some (true, cleaning)) None 0
    (simple_session "xsalsa20_poly1305" true) None None None None.

(** The defaults of [play]'s encoder arguments, with the given bitrate and
    the expected loss in percent. *)
Definition simple_config (rate : Z) : @EncoderConfig simple_codec :=
  @Build_EncoderConfig simple_codec "audio" rate true 15 "full" "auto".

(** The header of sequence 1, timestamp 960 and SSRC 12345. *)
Definition example_header : bytes :=
  [0x80; 0x78; 0x00; 0x01; 0x00; 0x00; 0x03; 0xC0; 0x00; 0x00; 0x30; 0x39].

(** A voice server update as the gateway sends it. *)
Definition example_payload : gmap string pyval :=
  <["token" := PyStr "a1b2c3"]>
    (<["guild_id" := PyStr "41771983423143937"]>
       (<["endpoint" := PyStr "wss://voice.example:443"]> ∅)).

(** ** Further methods of the client *)

(** The class attribute [supported_modes] (lines 245-249), in the order of
    preference. *)
Definition supported_modes : list string :=
  ["xsalsa20_poly1305_lite"; "xsalsa20_poly1305_suffix"; "xsalsa20_poly1305"].

(** The message [recv_audio] logs for a socket in error (line 803); the
    socket the source formats into it stays the placeholder. *)
Definition socket_error_message : string := "Socket error: {err[0]}".

(** The rest of the audio player ([discord/player.py]): [pause], [resume],
    the attribute [source] and [set_source]. *)
Class PlayerControlCapability {player : PlayerCapability} : Type := {
  player_pause : AudioPlayer -> AudioPlayer;
  player_resume : AudioPlayer -> AudioPlayer;
  player_source : AudioPlayer -> AudioSource;
  player_set_source : AudioSource -> AudioPlayer -> AudioPlayer
}.

(** The rest of the audio receiver ([discord/sink.py]): [stop_listening],
    [pause], [resume], [is_listening] and [is_paused]. *)
Class ReceiverControlCapability {player : PlayerCapability}
  {receiver : ReceiverCapability} : Type := {
  receiver_stop_listening : AudioReceiver -> AudioReceiver;
  receiver_pause : AudioReceiver -> AudioReceiver;
  receiver_resume : AudioReceiver -> AudioReceiver;
  receiver_is_listening : AudioReceiver -> bool;
  receiver_is_paused : AudioReceiver -> bool
}.

(** The operating system under the datagram socket: its state [network],
    [select.select([sock], [], [sock], 0.01)] as the pair (the list of
    readable sockets is not empty, the list of sockets in error is not
    empty), and [sock.recv(bufsize)], which takes a datagram off the socket. *)
Class SocketCapability : Type := {
  network : Type;
  select_select : Socket -> network -> bool * bool;
  socket_recv : Socket -> nat -> network -> res bytes * network
}.

Section Controls.

Context {nacl : SecretBoxCapability} {codec : CodecCapability} {enc : EncodeCapability}.
Context {player : PlayerCapability} {receiver : ReceiverCapability}.
Context {conn : ConnectionCapability} {client : ClientCapability}.
Context {player_control : PlayerControlCapability}.
Context {receiver_control : ReceiverControlCapability}.
Context {sock : SocketCapability}.

(** The three counters fit the fields [struct] packs them into. *)
Definition counters_in_range (s : VoiceClient) : Prop :=
  0 <= sequence s <= 65535
  /\ 0 <= timestamp s <= 4294967295
  /\ 0 <= _lite_nonce s <= 4294967295.

(** What building a packet does to the world: nothing, or one random draw
    used up (suffix mode), or the lite nonce advanced (lite mode). *)
Definition packet_effect (w w' : World) : Prop :=
  w' = w
  \/ w' = set_random_calls (S (random_calls w)) w
  \/ w' = set_self (checked_add (self w) attr__lite_nonce 1 4294967295) w.

(** [pause] and [resume] (lines 581-589). *)
Definition pause : M World unit :=
  let* s := get_self in
  match _player s with
  | Some p => modify_self (set__player (Some (player_pause p)))
  | None => ret tt
  end.

Definition resume : M World unit :=
  let* s := get_self in
  match _player s with
  | Some p => modify_self (set__player (Some (player_resume p)))
  | None => ret tt
  end.

(** The property [source] and its setter (lines 733-749). *)
Definition source (s : VoiceClient) : option AudioSource :=
  match _player s with
  | Some p => Some (player_source p)
  | None => None
  end.

Definition source_setter (value : pyobj AudioSource) : M World unit :=
  match value with
  | NotInstance _ => raise TypeError
  | Instance v =>
      let* s := get_self in
      match _player s with
      | None => raise ValueError
      | Some p => modify_self (set__player (Some (player_set_source v p)))
      end
  end.

(** The receiver's queries and controls (lines 693-722). *)
Definition is_listening (s : VoiceClient) : bool :=
  match _receiver s with
  | Some r => receiver_is_listening r
  | None => false
  end.

Definition is_listening_paused (s : VoiceClient) : bool :=
  match _receiver s with
  | Some r => receiver_is_paused r
  | None => false
  end.

Definition stop_listening : M World unit :=
  let* s := get_self in
  match _receiver s with
  | Some r => modify_self (set__receiver (Some (receiver_stop_listening r)))
  | None => ret tt
  end.

Definition pause_listening : M World unit :=
  let* s := get_self in
  match _receiver s with
  | Some r => modify_self (set__receiver (Some (receiver_pause r)))
  | None => ret tt
  end.

Definition resume_listening : M World unit :=
  let* s := get_self in
  match _receiver s with
  | Some r => modify_self (set__receiver (Some (receiver_resume r)))
  | None => ret tt
  end.

(** [recv_audio] (lines 784-811), over the world and the network.  The
    result [None] is Python's [None].  [select.select] on the sentinel
    [MISSING] raises [TypeError]; [self._connected] is read only when the
    socket is readable and not in error. *)
Definition on_world {A : Type} (m : M World A) : M (World * network) A :=
  fun wn => let (r, w') := m wn.1 in (r, (w', wn.2)).

Definition recv_audio (dump : bool) : M (World * network) (option bytes) :=
  let* wn := get_world in
  match socket (self wn.1) with
  | None => raise TypeError
  | Some sk =>
      let (ready, err) := select_select sk wn.2 in
      if err then
        on_world (_log ERROR socket_error_message []) ;;;
        ret None
      else if negb ready then ret None
      else
        match _connected (self wn.1) with
        | None => raise AttributeError
        | Some false => ret None
        | Some true =>
            let* data := (fun wn' : World * network =>
                            let (r, n') := socket_recv sk 4096 wn'.2 in (r, (wn'.1, n'))) in
            if dump then ret None else ret (Some data)
        end
  end.

End Controls.

(** The small environment, continued: a player is paused by nothing, a
    receiver listens when it is off standby, and the network is the list of
    datagrams waiting on the socket, none of them in error. *)
Definition simple_player_control : @PlayerControlCapability simple_player :=
  @Build_PlayerControlCapability simple_player
    (fun p : bool => p) (fun p : bool => p) (fun p : bool => p)
    (fun (_ : bool) (p : bool) => p).

Definition simple_receiver_control
  : @ReceiverControlCapability simple_player simple_receiver :=
  @Build_ReceiverControlCapability simple_player simple_receiver
    (fun _ : bool * bool => (true, true)) (fun r : bool * bool => r)
    (fun r : bool * bool => r) (fun r : bool * bool => negb r.1)
    (fun _ : bool * bool => false).

Definition simple_sock : SocketCapability :=
  {| network := list bytes;
     select_select := fun _ inbox =>
       (match inbox with [] => false | _ :: _ => true end, false);
     socket_recv := fun _ bufsize inbox =>
       match inbox with
       | [] => (Raise OSError, [])
       | datagram :: rest => (Ok (take bufsize datagram), rest)
       end |}.

(** A client of the small environment in the middle of a call: a socket, a
    player that plays, a receiver off standby, and the connected signal as
    given. *)
Definition simple_live_client (connected : bool)
  : @VoiceClient simple_codec simple_player simple_receiver simple_conn simple_client :=
  @Build_VoiceClient simple_codec simple_player simple_receiver simple_conn simple_client
    1 None (Some (setblocking false socket_socket)) 7 960 (Some true)
    (Some (false, false)) None 0
    (simple_session "xsalsa20_poly1305" true) None (Some connected) None None.

(** One datagram of three bytes waiting on the socket. *)
Definition simple_inbox : @network simple_sock := ([[1; 2; 3]] : list bytes).

(** A connection state whose teardown fails: [disconnect] raises [OSError]
    and leaves the state as it is.  The rest is the small environment's. *)
Definition broken_conn : ConnectionCapability :=
  {| VoiceConnectionState := SimpleConnection;
     VoiceConnectionState_new := @VoiceConnectionState_new simple_conn;
     conn_session_id := sc_session_id;
     conn_token := sc_token;
     conn_endpoint := sc_endpoint;
     conn_ssrc := sc_ssrc;
     conn_mode := sc_mode;
     conn_secret_key := sc_secret_key;
     conn_is_connected := sc_connected;
     conn_voice_server_update := fun _ c => (Ok tt, c);
     conn_disconnect := fun _ c => (Raise OSError, c);
     conn_send_packet := @conn_send_packet simple_conn |}.

(** A playing, listening client on the broken connection, and its world. *)
Definition broken_world
  : @World simple_codec simple_player simple_receiver broken_conn simple_client :=
  @Build_World simple_codec simple_player simple_receiver broken_conn simple_client
    (@Build_VoiceClient simple_codec simple_player simple_receiver broken_conn simple_client
       1 None None 7 960 (Some true) (Some (false, false)) None 0
       (simple_session "xsalsa20_poly1305" true) None (Some true) None None)
    ({[1]}, true) true 0%nat [].


(** * Properties *)

(** ** Big-endian packing *)

Lemma be_bytes_length (size : nat) (v : Z) : length (be_bytes size v) = size.
Proof. induction size as [|k IH]; simpl; [reflexivity | now rewrite IH]. Qed.

Lemma be_bytes_is_bytes (size : nat) (v : Z) : is_bytes (be_bytes size v).
Proof.
  unfold is_bytes. induction size as [|k IH]; simpl; constructor; [|exact IH].
  apply Z.mod_pos_bound. lia.
Qed.

Lemma fold_be_bytes (size : nat) (v acc : Z) :
  fold_left (fun a x => a * 256 + x) (be_bytes size v) acc
  = acc * 256 ^ Z.of_nat size + v mod 256 ^ Z.of_nat size.
Proof.
  revert acc. induction size as [|k IH]; intros acc.
  - simpl. rewrite Z.mod_1_r. lia.
  - cbn [be_bytes fold_left]. rewrite IH.
    rewrite Nat2Z.inj_succ, Z.pow_succ_r by lia.
    assert (0 < 256 ^ Z.of_nat k) by (apply Z.pow_pos_nonneg; lia).
    rewrite (Z.mul_comm 256 (256 ^ Z.of_nat k)).
    rewrite (Z.rem_mul_r v (256 ^ Z.of_nat k) 256) by lia.
    lia.
Qed.

(** Decoding the packed digits gives the value back, when it fits. *)
Lemma be_value_be_bytes (size : nat) (v : Z) :
  0 <= v < 256 ^ Z.of_nat size -> be_value (be_bytes size v) = v.
Proof.
  intros Hv. unfold be_value. rewrite fold_be_bytes.
  rewrite Z.mod_small by exact Hv. lia.
Qed.

Lemma struct_pack_fits (f : struct_format) (v : Z) :
  0 <= v < 256 ^ Z.of_nat (calcsize f) ->
  struct_pack f v = Ok (be_bytes (calcsize f) v).
Proof.
  intros [Hlo Hhi]. unfold struct_pack.
  apply Z.leb_le in Hlo. apply Z.ltb_lt in Hhi. now rewrite Hlo, Hhi.
Qed.

Lemma struct_pack_overflow (f : struct_format) (v : Z) :
  ~ 0 <= v < 256 ^ Z.of_nat (calcsize f) -> struct_pack f v = Raise StructError.
Proof.
  intros Hv. unfold struct_pack.
  destruct (0 <=? v) eqn:Hlo; [|reflexivity].
  destruct (v <? 256 ^ Z.of_nat (calcsize f)) eqn:Hhi; [|reflexivity].
  apply Z.leb_le in Hlo. apply Z.ltb_lt in Hhi. lia.
Qed.

Lemma struct_pack_into_fits (f : struct_format) (buffer : bytes) (offset : nat) (v : Z) :
  (offset + calcsize f <= length buffer)%nat ->
  0 <= v < 256 ^ Z.of_nat (calcsize f) ->
  struct_pack_into f buffer offset v
  = Ok (take offset buffer ++ be_bytes (calcsize f) v ++ drop (offset + calcsize f) buffer).
Proof.
  intros Hlen Hv. unfold struct_pack_into.
  apply Nat.leb_le in Hlen. rewrite Hlen.
  now rewrite (struct_pack_fits f v Hv).
Qed.

Section Properties.

Context {nacl : SecretBoxCapability} {codec : CodecCapability} {enc : EncodeCapability}.
Context {player : PlayerCapability} {receiver : ReceiverCapability}.
Context {conn : ConnectionCapability} {client : ClientCapability}.

(** ** Counters *)

Lemma getattr_setattr (s : VoiceClient) (attr : counter_attr) (v : Z) :
  getattr (setattr s attr v) attr = v.
Proof. destruct attr; reflexivity. Qed.

Lemma getattr_setattr_other (s : VoiceClient) (attr other : counter_attr) (v : Z) :
  other <> attr -> getattr (setattr s attr v) other = getattr s other.
Proof. destruct attr, other; intros Hne; try reflexivity; congruence. Qed.

Lemma checked_add_setattr (s : VoiceClient) (attr : counter_attr) (value limit : Z) :
  checked_add s attr value limit
  = setattr s attr (if getattr s attr + value >? limit then 0 else getattr s attr + value).
Proof. unfold checked_add. now destruct (getattr s attr + value >? limit). Qed.

(** C1: for a counter holding [v], [checked_add] with increment [d] and
    limit [L] leaves 0 in it when [v + d > L] and [v + d] otherwise, for any
    limit and so for 65535 (sequence) and 4294967295 (timestamp, lite nonce);
    with increment 1 and limit 65535 the sequence becomes [v + 1] when
    [v + 1 <= 65535] and 0 otherwise; the reset is to 0 whatever the excess
    of [v + d] over [L], where wrapping modulo [L + 1] would leave the excess
    minus one; and the other two counters keep their values. *)
Theorem checked_add_resets_to_zero (s : VoiceClient) (attr : counter_attr) (d L : Z) :
  let v := getattr s attr in
  getattr (checked_add s attr d L) attr = (if v + d >? L then 0 else v + d)
  /\ getattr (checked_add s attr_sequence 1 65535) attr_sequence
     = (if sequence s + 1 <=? 65535 then sequence s + 1 else 0)
  /\ getattr (checked_add s attr_timestamp d 4294967295) attr_timestamp
     = (if timestamp s + d <=? 4294967295 then timestamp s + d else 0)
  /\ getattr (checked_add s attr__lite_nonce d 4294967295) attr__lite_nonce
     = (if _lite_nonce s + d <=? 4294967295 then _lite_nonce s + d else 0)
  /\ (v + d > L -> getattr (checked_add s attr d L) attr = 0)
  /\ (v + d <= L -> getattr (checked_add s attr d L) attr = v + d)
  /\ (forall other, other <> attr ->
      getattr (checked_add s attr d L) other = getattr s other).
Proof.
  cbv zeta. rewrite !checked_add_setattr, !getattr_setattr. cbn [getattr].
  repeat split.
  - rewrite Z.gtb_ltb. destruct (Z.ltb_spec 65535 (sequence s + 1)),
      (Z.leb_spec (sequence s + 1) 65535); lia.
  - rewrite Z.gtb_ltb. destruct (Z.ltb_spec 4294967295 (timestamp s + d)),
      (Z.leb_spec (timestamp s + d) 4294967295); lia.
  - rewrite Z.gtb_ltb. destruct (Z.ltb_spec 4294967295 (_lite_nonce s + d)),
      (Z.leb_spec (_lite_nonce s + d) 4294967295); lia.
  - intros Hgt. rewrite Z.gtb_ltb. destruct (Z.ltb_spec L (getattr s attr + d)); lia.
  - intros Hle. rewrite Z.gtb_ltb. destruct (Z.ltb_spec L (getattr s attr + d)); lia.
  - intros other Hne. now apply getattr_setattr_other.
Qed.

(** ** The RTP header *)

Lemma rtp_header_fields (s : VoiceClient) :
  0 <= sequence s <= 65535 ->
  0 <= timestamp s <= 4294967295 ->
  0 <= ssrc s <= 4294967295 ->
  rtp_header s = Ok (header_fields (sequence s) (timestamp s) (ssrc s)).
Proof.
  intros Hseq Hts Hssrc. unfold rtp_header.
  rewrite (struct_pack_into_fits fmt_H) by (cbn; lia). cbn [res_bind].
  rewrite (struct_pack_into_fits fmt_I) by (cbn; lia). cbn [res_bind].
  rewrite (struct_pack_into_fits fmt_I) by (cbn; lia).
  reflexivity.
Qed.

(** C2: when the sequence fits 16 bits and the timestamp and the SSRC fit 32
    bits, [_get_voice_packet] hands the encryption method of the negotiated
    mode a header of exactly 12 bytes whose byte 0 is 0x80, byte 1 is 0x78,
    bytes 2-3 are the sequence, bytes 4-7 the timestamp and bytes 8-11 the
    SSRC, each big-endian; for sequence 1, timestamp 960 and SSRC 12345 it is
    80 78 00 01 00 00 03 C0 00 00 30 39. *)
Theorem rtp_header_layout (s : VoiceClient) :
  0 <= sequence s <= 65535 ->
  0 <= timestamp s <= 4294967295 ->
  0 <= ssrc s <= 4294967295 ->
  exists header,
    rtp_header s = Ok header
    /\ (forall data w, self w = s ->
        _get_voice_packet data w
        = match getattr_encrypt ("_encrypt_" ++ mode s)%string with
          | Ok encrypt_packet => encrypt_packet header data w
          | Raise e => (Raise e, w)
          end)
    /\ length header = 12%nat
    /\ is_bytes header
    /\ header !! 0%nat = Some 0x80
    /\ header !! 1%nat = Some 0x78
    /\ take 2 (drop 2 header) = be_bytes 2 (sequence s)
    /\ be_value (take 2 (drop 2 header)) = sequence s
    /\ take 4 (drop 4 header) = be_bytes 4 (timestamp s)
    /\ be_value (take 4 (drop 4 header)) = timestamp s
    /\ drop 8 header = be_bytes 4 (ssrc s)
    /\ be_value (drop 8 header) = ssrc s
    /\ (sequence s = 1 -> timestamp s = 960 -> ssrc s = 12345 ->
        header = [0x80; 0x78; 0x00; 0x01; 0x00; 0x00; 0x03; 0xC0; 0x00; 0x00; 0x30; 0x39]).
Proof.
  intros Hseq Hts Hssrc.
  exists (header_fields (sequence s) (timestamp s) (ssrc s)).
  pose proof (rtp_header_fields s Hseq Hts Hssrc) as Hhdr.
  split; [exact Hhdr|].
  split.
  { intros data w Hw. unfold _get_voice_packet, bind, get_self, lift_res.
    rewrite Hw, Hhdr. now destruct (getattr_encrypt _). }
  assert (Hseq_take : take 2 (drop 2 (header_fields (sequence s) (timestamp s) (ssrc s)))
                      = be_bytes 2 (sequence s)) by reflexivity.
  assert (Hts_take : take 4 (drop 4 (header_fields (sequence s) (timestamp s) (ssrc s)))
                     = be_bytes 4 (timestamp s)) by reflexivity.
  assert (Hssrc_drop : drop 8 (header_fields (sequence s) (timestamp s) (ssrc s))
                       = be_bytes 4 (ssrc s)) by reflexivity.
  rewrite Hseq_take, Hts_take, Hssrc_drop.
  repeat match goal with |- _ /\ _ => split end; try reflexivity.
  - unfold header_fields, is_bytes. rewrite !Forall_app.
    repeat split; try apply be_bytes_is_bytes.
    repeat constructor; lia.
  - apply be_value_be_bytes. cbn; lia.
  - apply be_value_be_bytes. cbn; lia.
  - apply be_value_be_bytes. cbn; lia.
  - intros -> -> ->. reflexivity.
Qed.

(** ** The three encryption layouts *)

Lemma make_box_outcome (w : World) :
  make_box w = (res_bind (bytes_of_ints (secret_key (self w))) SecretBox, w).
Proof.
  unfold make_box, bind, get_self, lift_res.
  now destruct (bytes_of_ints (secret_key (self w))).
Qed.

(** C3: in lite mode, with the counter [n] within 32 bits and a key the
    secret box accepts, the nonce given to the box is the 4 big-endian bytes
    of [n] followed by 20 zero bytes, the packet is the header, the
    ciphertext and those 4 bytes only, and the call leaves [n + 1] in the
    counter, or 0 when [n] is 4294967295, whether or not the box then fails;
    the sequence and the timestamp are not changed, and neither the outcome
    nor the new counter depends on them. *)
Theorem encrypt_lite_layout (header data : bytes) (w : World) (box : secret_box) :
  0 <= _lite_nonce (self w) <= 4294967295 ->
  res_bind (bytes_of_ints (secret_key (self w))) SecretBox = Ok box ->
  let n := _lite_nonce (self w) in
  let nonce := be_bytes 4 n ++ replicate 20 0 in
  let w' := set_self (set__lite_nonce (if n =? 4294967295 then 0 else n + 1) (self w)) w in
  _encrypt_xsalsa20_poly1305_lite header data w
  = (res_map (fun ciphertext => header ++ ciphertext ++ be_bytes 4 n)
       (box_encrypt box data nonce), w')
  /\ length nonce = 24%nat
  /\ be_value (take 4 nonce) = n
  /\ drop 4 nonce = replicate 20 0
  /\ length (be_bytes 4 n) = 4%nat
  /\ sequence (self w') = sequence (self w)
  /\ timestamp (self w') = timestamp (self w)
  /\ (forall seq ts,
      let w2 := set_self (set_timestamp ts (set_sequence seq (self w))) w in
      (_encrypt_xsalsa20_poly1305_lite header data w2).1
      = (_encrypt_xsalsa20_poly1305_lite header data w).1
      /\ _lite_nonce (self (_encrypt_xsalsa20_poly1305_lite header data w2).2)
         = _lite_nonce (self w')).
Proof.
  intros Hn Hbox n nonce w'.
  assert (Hrun : forall w0 : World,
             _lite_nonce (self w0) = n ->
             secret_key (self w0) = secret_key (self w) ->
             _encrypt_xsalsa20_poly1305_lite header data w0
             = (res_map (fun ciphertext => header ++ ciphertext ++ be_bytes 4 n)
                  (box_encrypt box data nonce),
                set_self (set__lite_nonce (if n =? 4294967295 then 0 else n + 1) (self w0))
                  w0)).
  { intros w0 Hn0 Hkey.
    unfold _encrypt_xsalsa20_poly1305_lite, bind at 1.
    rewrite make_box_outcome, Hkey, Hbox.
    unfold bind, get_self, lift_res, modify_self, modify, ret.
    rewrite Hn0, (struct_pack_fits fmt_I n) by (cbn; lia).
    cbn [self set_self].
    assert (Hadd : checked_add (self w0) attr__lite_nonce 1 4294967295
                   = set__lite_nonce (if n =? 4294967295 then 0 else n + 1) (self w0)).
    { rewrite checked_add_setattr. cbn [getattr setattr]. rewrite Hn0, Z.gtb_ltb.
      destruct (Z.ltb_spec 4294967295 (n + 1)), (Z.eqb_spec n 4294967295);
        try reflexivity; lia. }
    rewrite Hadd.
    change (assign_prefix (bytearray 24) 4 (be_bytes (calcsize fmt_I) n)) with nonce.
    change (take 4 nonce) with (be_bytes 4 n).
    now destruct (box_encrypt box data nonce). }
  repeat match goal with |- _ /\ _ => split end; try reflexivity.
  - apply Hrun; reflexivity.
  - change (take 4 nonce) with (be_bytes 4 n). apply be_value_be_bytes. cbn; lia.
  - intros seq ts w2. rewrite (Hrun w) by reflexivity.
    rewrite (Hrun w2) by reflexivity. split; reflexivity.
Qed.

(** C4: with a 12-byte header and a key the secret box accepts, the plain
    mode gives the box the header followed by 12 zero bytes as its 24-byte
    nonce and returns the header and the ciphertext with nothing after them;
    the suffix mode gives the box the next 24 bytes drawn from
    [nacl.utils.random] and returns the header, the ciphertext and all 24
    bytes of that nonce, and the draw is used up. *)
Theorem encrypt_plain_and_suffix_layout (header data : bytes) (w : World)
  (box : secret_box) :
  length header = 12%nat ->
  res_bind (bytes_of_ints (secret_key (self w))) SecretBox = Ok box ->
  (let nonce := header ++ replicate 12 0 in
   _encrypt_xsalsa20_poly1305 header data w
   = (res_map (fun ciphertext => header ++ ciphertext) (box_encrypt box data nonce), w)
   /\ length nonce = 24%nat
   /\ take 12 nonce = header
   /\ drop 12 nonce = replicate 12 0)
  /\ (let nonce := nacl_random (random_calls w) NONCE_SIZE in
      _encrypt_xsalsa20_poly1305_suffix header data w
      = (res_map (fun ciphertext => header ++ ciphertext ++ nonce)
           (box_encrypt box data nonce),
         set_random_calls (S (random_calls w)) w)
      /\ length nonce = 24%nat).
Proof.
  intros Hlen Hbox. split.
  - cbv zeta. repeat match goal with |- _ /\ _ => split end.
    + unfold _encrypt_xsalsa20_poly1305, bind at 1.
      rewrite make_box_outcome, Hbox.
      unfold bind, lift_res, ret.
      change (assign_prefix (bytearray 24) 12 header) with (header ++ replicate 12 0).
      now destruct (box_encrypt box data (header ++ replicate 12 0)).
    + rewrite length_app, Hlen. reflexivity.
    + rewrite take_app_length'; [reflexivity | now rewrite Hlen].
    + rewrite drop_app_length'; [reflexivity | now rewrite Hlen].
  - cbv zeta. split.
    + unfold _encrypt_xsalsa20_poly1305_suffix, bind at 1.
      rewrite make_box_outcome, Hbox.
      unfold bind, nacl_utils_random, lift_res, ret.
      now destruct (box_encrypt box data (nacl_random (random_calls w) NONCE_SIZE)).
    + apply nacl_random_length.
Qed.

(** ** Sending *)

Lemma packet_frame_refl (w : World) : packet_frame w w.
Proof.
  exists (_lite_nonce (self w)), (random_calls w).
  destruct w as [s st o n eff]. destruct s. reflexivity.
Qed.

Lemma encrypt_plain_frame (header data : bytes) (w : World) :
  packet_frame w (_encrypt_xsalsa20_poly1305 header data w).2.
Proof.
  unfold _encrypt_xsalsa20_poly1305, bind at 1. rewrite make_box_outcome.
  destruct (res_bind _ _) as [box|e]; [|apply packet_frame_refl].
  unfold bind, lift_res, ret.
  destruct (box_encrypt _ _ _); apply packet_frame_refl.
Qed.

Lemma encrypt_suffix_frame (header data : bytes) (w : World) :
  packet_frame w (_encrypt_xsalsa20_poly1305_suffix header data w).2.
Proof.
  unfold _encrypt_xsalsa20_poly1305_suffix, bind at 1. rewrite make_box_outcome.
  destruct (res_bind _ _) as [box|e]; [|apply packet_frame_refl].
  unfold bind, nacl_utils_random, lift_res, ret.
  assert (packet_frame w (set_random_calls (S (random_calls w)) w)) as Hf.
  { exists (_lite_nonce (self w)), (S (random_calls w)).
    destruct w as [s st o n eff]. destruct s. reflexivity. }
  destruct (box_encrypt _ _ _); exact Hf.
Qed.

Lemma encrypt_lite_frame (header data : bytes) (w : World) :
  packet_frame w (_encrypt_xsalsa20_poly1305_lite header data w).2.
Proof.
  unfold _encrypt_xsalsa20_poly1305_lite, bind at 1. rewrite make_box_outcome.
  destruct (res_bind _ _) as [box|e]; [|apply packet_frame_refl].
  unfold bind, get_self, lift_res, modify_self, modify, ret.
  destruct (struct_pack fmt_I _) as [packed|e]; [|apply packet_frame_refl].
  rewrite checked_add_setattr. cbn [getattr setattr].
  match goal with
  | |- context [set__lite_nonce ?m (self w)] =>
      assert (packet_frame w (set_self (set__lite_nonce m (self w)) w)) as Hf
  end.
  { eexists _, (random_calls w). destruct w as [s st o n eff]. reflexivity. }
  destruct (box_encrypt _ _ _); exact Hf.
Qed.

Lemma get_voice_packet_frame (data : bytes) (w : World) :
  packet_frame w (_get_voice_packet data w).2.
Proof.
  unfold _get_voice_packet, bind, get_self, lift_res.
  destruct (rtp_header (self w)) as [header|e]; [|apply packet_frame_refl].
  unfold getattr_encrypt.
  repeat match goal with
         | |- context [if ?b then _ else _] => destruct b
         end;
    auto using encrypt_plain_frame, encrypt_suffix_frame, encrypt_lite_frame,
      packet_frame_refl.
Qed.

(** C8: let the sequence be advanced first, and let encoding and building
    the packet in that world succeed.  If the connection then sends the
    packet or raises [OSError], the call returns normally: the error is
    caught, and a record of the dropped packet is logged in place of it.
    Either way the sequence has advanced by 1 under the reset rule of
    [checked_add] with limit 65535, before the packet was built, and the
    timestamp by [SAMPLES_PER_FRAME] under that rule with limit 4294967295,
    after the send. *)
Theorem send_audio_packet_counters (data : bytes) (encode_flag : bool) (w : World)
  (encoded packet : bytes) (w2 : World) :
  let w1 := set_self (checked_add (self w) attr_sequence 1 65535) w in
  (if encode_flag then encoder_encode data else ret data) w1 = (Ok encoded, w1) ->
  _get_voice_packet encoded w1 = (Ok packet, w2) ->
  let sent := conn_send_packet packet (_connection (self w2)) in
  sent.1 = Ok tt \/ sent.1 = Raise OSError ->
  let out := send_audio_packet data encode_flag w in
  let seq' := if sequence (self w) + 1 >? 65535 then 0 else sequence (self w) + 1 in
  out.1 = Ok tt
  /\ sequence (self out.2) = seq'
  /\ timestamp (self out.2)
     = (if timestamp (self w) + SAMPLES_PER_FRAME >? 4294967295 then 0
        else timestamp (self w) + SAMPLES_PER_FRAME)
  /\ sequence (self w1) = seq'
  /\ timestamp (self w1) = timestamp (self w)
  /\ _connection (self out.2) = sent.2
  /\ (sent.1 = Ok tt -> effects out.2 = effects w)
  /\ (sent.1 = Raise OSError ->
      effects out.2
      = effects w
        ++ [Log INFO packet_dropped_message [seq'; timestamp (self w)]]).
Proof.
  intros w1 Henc Hpkt sent Hsent out seq'.
  pose proof (get_voice_packet_frame encoded w1) as [lite [draws Hw2]].
  rewrite Hpkt in Hw2. cbn [snd] in Hw2.
  assert (Hseq1 : sequence (self w1) = seq').
  { subst w1 seq'. cbn [self set_self]. rewrite checked_add_setattr. reflexivity. }
  assert (Hts1 : timestamp (self w1) = timestamp (self w)).
  { subst w1. cbn [self set_self]. rewrite checked_add_setattr. reflexivity. }
  assert (Hout : out
                 = bind (try_except (on_connection (conn_send_packet packet)) OSError
                           (bind get_self (fun s =>
                              _log INFO packet_dropped_message
                                [sequence s; timestamp s])))
                     (fun _ => modify_self
                                 (fun s => checked_add s attr_timestamp SAMPLES_PER_FRAME
                                             4294967295)) w2).
  { subst out. unfold send_audio_packet.
    unfold bind at 1. unfold modify_self at 1, modify at 1.
    fold w1. unfold bind at 1. rewrite Henc. unfold bind at 1. rewrite Hpkt.
    reflexivity. }
  assert (Hseq2 : sequence (self w2) = seq') by (rewrite Hw2; exact Hseq1).
  assert (Hts2 : timestamp (self w2) = timestamp (self w)) by (rewrite Hw2; exact Hts1).
  assert (Heff2 : effects w2 = effects w) by (rewrite Hw2; reflexivity).
  rewrite Hout. clear Hout.
  unfold bind, try_except, on_connection.
  fold sent. destruct sent as [r c] eqn:Esent. cbn [fst snd] in *.
  destruct Hsent as [-> | ->].
  - cbn. rewrite !checked_add_setattr. cbn.
    rewrite Hseq2, Hts2, Heff2.
    repeat match goal with |- _ /\ _ => split end; try reflexivity; try exact Hseq1;
      try exact Hts1.
    discriminate.
  - destruct (decide (OSError = OSError)) as [_|Hne]; [|congruence].
    cbn. rewrite !checked_add_setattr. cbn.
    rewrite Hseq2, Hts2, Heff2.
    repeat match goal with |- _ /\ _ => split end; try reflexivity; try exact Hseq1;
      try exact Hts1.
    discriminate.
Qed.

(** ** Playing *)

(** Building an encoder touches the Opus library only. *)
Lemma opus_Encoder_frame (cfg : EncoderConfig) (w : World) :
  exists o, (opus_Encoder cfg w).2 = set_opus o w.
Proof.
  assert (Hrefl : w = set_opus (opus w) w) by (now destruct w).
  unfold opus_Encoder.
  repeat match goal with
         | |- context [if ?b then _ else _] => destruct b
         end;
    try (exists (opus w); exact Hrefl).
  unfold bind, opus_get_opus_version, ret.
  destruct (get_opus_version (opus w)) as [[v|e] o]; exists o; reflexivity.
Qed.

Lemma opus_Encoder_bitrate (cfg : EncoderConfig) (w : World) :
  ~ 16 <= bitrate cfg <= 512 -> opus_Encoder cfg w = (Raise ValueError, w).
Proof.
  intros Hrange. unfold opus_Encoder.
  destruct (negb (mem_string (application cfg) _)); [reflexivity|].
  destruct (Z.leb_spec 16 (bitrate cfg)), (Z.leb_spec (bitrate cfg) 512);
    try reflexivity; lia.
Qed.

Lemma opus_Encoder_value (cfg : EncoderConfig) (w w' : World) (e : Encoder) :
  opus_Encoder cfg w = (Ok e, w') -> e = {| encoder_config := cfg |}.
Proof.
  unfold opus_Encoder.
  repeat match goal with
         | |- context [if ?b then _ else _] => destruct b
         end;
    try discriminate.
  unfold bind, opus_get_opus_version, ret.
  destruct (get_opus_version (opus w)) as [[v|err] o]; [|discriminate].
  now intros [= <- _].
Qed.

(** C6: [play] raises [ClientException] when the client is not connected and
    when it is connected and already playing, and [TypeError] when the source
    is then not an [AudioSource]; each time nothing has changed.  Past these
    checks, for a source that is not Opus-encoded the encoder is built from
    the given configuration before a player exists: when building it fails
    the failure is the outcome of [play] and the client has no new player,
    and a bitrate outside 16..512, such as 1024, gives [ValueError] with the
    world untouched; when it succeeds the encoder of that configuration is
    stored and the player is created and started.  For a source that is
    Opus-encoded no encoder is built: the encoder attribute and the Opus
    library stay as they were and the outcome is the same for every
    configuration. *)
Theorem play_checks (source : pyobj AudioSource) (after : option callback)
  (cfg : EncoderConfig) (w : World) :
  let s := self w in
  (is_connected s = false -> play source after cfg w = (Raise ClientException, w))
  /\ (is_connected s = true -> is_playing s = true ->
      play source after cfg w = (Raise ClientException, w))
  /\ (is_connected s = true -> is_playing s = false ->
      match source with
      | NotInstance _ => play source after cfg w = (Raise TypeError, w)
      | Instance src =>
          if is_opus src
          then
            (forall cfg', play source after cfg' w = play source after cfg w)
            /\ play source after cfg w
               = match AudioPlayer_new src after with
                 | Ok p => (Ok tt, set_self (set__player (Some (player_start p)) s) w)
                 | Raise e => (Raise e, w)
                 end
            /\ encoder (self (play source after cfg w).2) = encoder s
            /\ opus (play source after cfg w).2 = opus w
          else
            (forall e w', opus_Encoder cfg w = (Raise e, w') ->
             play source after cfg w = (Raise e, w')
             /\ _player (self w') = _player s
             /\ encoder (self w') = encoder s)
            /\ (~ 16 <= bitrate cfg <= 512 ->
                play source after cfg w = (Raise ValueError, w))
            /\ (bitrate cfg = 1024 -> play source after cfg w = (Raise ValueError, w))
            /\ (forall e w1, opus_Encoder cfg w = (Ok e, w1) ->
                e = {| encoder_config := cfg |}
                /\ play source after cfg w
                   = match AudioPlayer_new src after with
                     | Ok p =>
                         (Ok tt,
                          set_self
                            (set__player (Some (player_start p))
                               (set_encoder (Some e) (self w1))) w1)
                     | Raise err =>
                         (Raise err, set_self (set_encoder (Some e) (self w1)) w1)
                     end)
      end).
Proof.
  cbv zeta.
  assert (Hpre : forall c, is_connected (self w) = true -> is_playing (self w) = false ->
            play source after c w
            = match source with
              | NotInstance _ => (Raise TypeError, w)
              | Instance src =>
                  bind (if negb (is_opus src)
                        then bind (opus_Encoder c)
                               (fun e => modify_self (set_encoder (Some e)))
                        else ret tt)
                    (fun _ =>
                       bind (lift_res (AudioPlayer_new src after)) (fun p =>
                       bind (modify_self (set__player (Some p))) (fun _ =>
                       modify_self (set__player (Some (player_start p)))))) w
              end).
  { intros c Hc Hp. unfold play, bind at 1, get_self. rewrite Hc, Hp.
    destruct source; reflexivity. }
  split; [|split].
  - intros Hc. unfold play, bind, get_self. now rewrite Hc.
  - intros Hc Hp. unfold play, bind, get_self. now rewrite Hc, Hp.
  - intros Hc Hp. destruct source as [src|cls]; [|now apply Hpre].
    assert (Hplayer : forall w0 : World,
              bind (lift_res (AudioPlayer_new src after)) (fun p =>
              bind (modify_self (set__player (Some p))) (fun _ =>
              modify_self (set__player (Some (player_start p))))) w0
              = match AudioPlayer_new src after with
                | Ok p => (Ok tt, set_self (set__player (Some (player_start p)) (self w0)) w0)
                | Raise e => (Raise e, w0)
                end).
    { intros w0. unfold bind, lift_res, modify_self, modify.
      destruct (AudioPlayer_new src after); [|reflexivity].
      destruct w0 as [s0 st o n eff]. destruct s0. reflexivity. }
    destruct (is_opus src) eqn:Hopus.
    + assert (Hrun : forall c, play (Instance src) after c w
                       = match AudioPlayer_new src after with
                         | Ok p =>
                             (Ok tt, set_self (set__player (Some (player_start p)) (self w)) w)
                         | Raise e => (Raise e, w)
                         end).
      { intros c. rewrite (Hpre c Hc Hp). cbn [negb].
        unfold bind at 1, ret at 1. apply Hplayer. }
      split; [|split; [|split]].
      * intros cfg'. now rewrite !Hrun.
      * apply Hrun.
      * rewrite Hrun. now destruct (AudioPlayer_new src after).
      * rewrite Hrun. now destruct (AudioPlayer_new src after).
    + rewrite (Hpre cfg Hc Hp). cbn [negb].
      assert (Hfail : forall e w', opus_Encoder cfg w = (Raise e, w') ->
                bind (bind (opus_Encoder cfg)
                        (fun e0 => modify_self (set_encoder (Some e0))))
                  (fun _ =>
                     bind (lift_res (AudioPlayer_new src after)) (fun p =>
                     bind (modify_self (set__player (Some p))) (fun _ =>
                     modify_self (set__player (Some (player_start p)))))) w
                = (Raise e, w')).
      { intros e w' He. unfold bind at 1 2. now rewrite He. }
      split; [|split; [|split]].
      * intros e w' He. split; [now apply Hfail|].
        destruct (opus_Encoder_frame cfg w) as [o Ho]. rewrite He in Ho.
        cbn [snd] in Ho. subst w'. split; reflexivity.
      * intros Hrange. apply Hfail. now apply opus_Encoder_bitrate.
      * intros Hrate. apply Hfail. apply opus_Encoder_bitrate. lia.
      * intros e w1 He. split; [exact (opus_Encoder_value cfg w w1 e He)|].
        unfold bind at 1 2. rewrite He.
        unfold modify_self at 1, modify at 1.
        rewrite Hplayer. cbn [self set_self].
        destruct (AudioPlayer_new src after); [|reflexivity].
        destruct w1 as [s1 st o n eff]. reflexivity.
Qed.

(** ** Listening *)

(** C7: [listen] raises [ClientException] when the client is not connected,
    when it is connected and listening is already active, and, the sink being
    an [AudioSink], when the audio processing pool is not initialised,
    whatever [decode] is and so when it is true; it raises [TypeError] when
    the client is connected, not listening, and the sink is not an
    [AudioSink]; each time nothing has changed.  Past these checks the call
    goes on to the Opus check (made when [decode] is true) and to
    [start_listening], after logging the warning exactly when the receiver is
    still cleaning and [supress_warning] is false. *)
Theorem listen_checks (sink : pyobj AudioSink) (decode supress_warning : bool)
  (after : option callback) (kwargs : gmap string pyval) (w : World) :
  let s := self w in
  let out := listen sink decode supress_warning after kwargs w in
  (is_connected s = false -> out = (Raise ClientException, w))
  /\ (is_connected s = true -> is_listen_receiving s = true ->
      out = (Raise ClientException, w))
  /\ (is_connected s = true -> is_listen_receiving s = false ->
      match sink with
      | NotInstance _ => out = (Raise TypeError, w)
      | Instance snk =>
          (is_audio_process_pool_initialized w = false ->
           out = (Raise ClientException, w))
          /\ (is_audio_process_pool_initialized w = true ->
              let w1 :=
                if negb supress_warning && is_listen_cleaning s
                then set_effects (effects w ++ [Log WARNING cleanup_in_progress_message []]) w
                else w in
              out
              = bind (if decode then bind opus_get_opus_version (fun _ => ret tt)
                      else ret tt)
                  (fun _ => receiver_start_listening snk decode after kwargs) w1)
      end).
Proof.
  cbv zeta.
  set (out := listen sink decode supress_warning after kwargs w).
  assert (Hout : out = listen sink decode supress_warning after kwargs w) by reflexivity.
  clearbody out. unfold listen in Hout. unfold bind at 1 in Hout.
  unfold get_world in Hout. cbn beta iota zeta in Hout.
  split; [|split].
  - intros Hc. now rewrite Hc in Hout.
  - intros Hc Hr. now rewrite Hc, Hr in Hout.
  - intros Hc Hr. rewrite Hc, Hr in Hout. cbn [negb] in Hout.
    destruct sink as [snk|cls]; [|exact Hout].
    split.
    + intros Hpool. now rewrite Hpool in Hout.
    + intros Hpool. rewrite Hpool in Hout. cbn [negb] in Hout.
      rewrite Hout. unfold bind at 1.
      destruct (negb supress_warning && is_listen_cleaning (self w)); reflexivity.
Qed.

(** ** The voice server update *)

(** Whatever the payload, the method ends at one of its first three steps:
    with the exception of the connection state's own update, with
    [KeyError] for a payload without a token, or with [AttributeError] at
    [self.token = data['token']].  Only [self._connection] has changed. *)
Lemma on_voice_server_update_outcome (data : gmap string pyval) (w : World) :
  on_voice_server_update data w
  = let (r, c) := conn_voice_server_update data (_connection (self w)) in
    let w' := set_self (set__connection c (self w)) w in
    match r, data !! "token" with
    | Raise e, _ => (Raise e, w')
    | Ok _, None => (Raise KeyError, w')
    | Ok _, Some _ => (Raise AttributeError, w')
    end.
Proof.
  unfold on_voice_server_update. unfold bind at 1. unfold on_connection.
  destruct (conn_voice_server_update data (_connection (self w))) as [[u|e] c];
    [|reflexivity].
  unfold bind at 1. unfold getitem.
  destruct (data !! "token"); reflexivity.
Qed.

(** The update never returns normally, and it leaves the client without the
    socket and the receiver it was to set up, logs nothing and sends no close
    request. *)
Lemma on_voice_server_update_never_completes (data : gmap string pyval) (w : World) :
  let out := on_voice_server_update data w in
  (exists e, out.1 = Raise e)
  /\ socket (self out.2) = socket (self w)
  /\ _receiver (self out.2) = _receiver (self w)
  /\ server_id (self out.2) = server_id (self w)
  /\ effects out.2 = effects w.
Proof.
  cbv zeta. rewrite on_voice_server_update_outcome.
  destruct (conn_voice_server_update data (_connection (self w))) as [[u|e] c];
    [destruct (data !! "token")|]; cbn; eauto 6.
Qed.

(** ** Disconnecting *)

(** [stop] leaves the client without a player. *)
Lemma stop_outcome (w : World) :
  stop w = (Ok tt, set_self (set__player None (self w)) w).
Proof.
  unfold stop, bind, get_self, modify_self, modify, ret.
  destruct (_player (self w)) eqn:Hp.
  - cbn. destruct w as [s st o n eff]. reflexivity.
  - destruct w as [s st o n eff]. destruct s. cbn in *. now subst.
Qed.

(** A client without a receiver cannot finish [disconnect]: once the player
    is stopped, the connection torn down and the registration removed, the
    call of [stop] on the missing receiver raises [AttributeError]; the
    connected signal is never reached. *)
Lemma disconnect_without_receiver (force : bool) (w : World) :
  _receiver (self w) = None ->
  let out := disconnect force w in
  (exists e, out.1 = Raise e)
  /\ (forall c, conn_disconnect force (_connection (self w)) = (Ok tt, c) ->
      out
      = (Raise AttributeError,
         set_state
           (_remove_voice_client (_get_voice_client_key (channel (self w))).1 (state w))
           (set_self (set__connection c (set__player None (self w))) w))).
Proof.
  intros Hrecv out.
  assert (Hout : out
                 = let (r, c) := conn_disconnect force (_connection (self w)) in
                   match r with
                   | Ok _ =>
                       (Raise AttributeError,
                        set_state
                          (_remove_voice_client
                             (_get_voice_client_key (channel (self w))).1 (state w))
                          (set_self (set__connection c (set__player None (self w))) w))
                   | Raise e =>
                       (Raise e, set_self (set__connection c (set__player None (self w))) w)
                   end).
  { subst out. unfold disconnect. unfold bind at 1. rewrite stop_outcome.
    unfold bind, on_connection, cleanup, get_self, modify, raise. cbn.
    destruct (conn_disconnect force (_connection (self w))) as [[[]|e] c];
      [|reflexivity].
    cbn. rewrite Hrecv. reflexivity. }
  rewrite Hout.
  destruct (conn_disconnect force (_connection (self w))) as [[[]|e] c].
  - split; [cbn; eauto|]. now intros c' [= <-].
  - split; [cbn; eauto|]. discriminate.
Qed.

(** ** Construction *)

(** C10: without PyNaCl ([has_nacl] false) the constructor raises
    [RuntimeError] and yields no client, so no counter, socket or connection
    state of one; with PyNaCl it yields a client whose sequence, timestamp
    and lite nonce are 0 and which has no player, no receiver, no socket and
    no encoder, its connection state being a newly created one. *)
Theorem init_requires_nacl (chan : Channel) :
  __init__ false chan = Raise RuntimeError
  /\ exists s,
      __init__ true chan = Ok s
      /\ sequence s = 0
      /\ timestamp s = 0
      /\ _lite_nonce s = 0
      /\ _player s = None
      /\ _receiver s = None
      /\ socket s = None
      /\ encoder s = None
      /\ _connection s = create_connection_state
      /\ channel s = chan.
Proof.
  split; [reflexivity|].
  eexists. split; [reflexivity|].
  repeat split.
Qed.

End Properties.

(** * The model at concrete inputs *)

(** C1 where the sum passes the limit by 665: the timestamp 4294967000
    advanced by 960 becomes 0, not the 664 that wrapping modulo 2^32 gives. *)
Lemma checked_add_resets_to_zero_example :
  4294967000 + 960 > 4294967295
  /\ timestamp
       (checked_add (simple_voice_client 65535 4294967000 0 (simple_session "" true))
          attr_timestamp 960 4294967295)
     = 0
  /\ (4294967000 + 960) mod 2 ^ 32 = 664.
Proof.
  destruct (@checked_add_resets_to_zero simple_codec simple_player simple_receiver
              simple_conn simple_client
              (simple_voice_client 65535 4294967000 0 (simple_session "" true))
              attr_timestamp 960 4294967295)
    as (_ & _ & _ & _ & Hreset & _).
  split; [lia|]. split; [|reflexivity].
  apply Hreset. simpl. lia.
Defined.

(** The layout of C2 at sequence 1, timestamp 960 and SSRC 12345. *)
Lemma rtp_header_layout_example :
  0 <= 1 <= 65535
  /\ 0 <= 960 <= 4294967295
  /\ 0 <= 12345 <= 4294967295
  /\ @rtp_header simple_codec simple_player simple_receiver simple_conn simple_client
       (simple_voice_client 1 960 0 (simple_session "xsalsa20_poly1305" true))
     = Ok example_header.
Proof.
  destruct (@rtp_header_layout simple_nacl simple_codec simple_player simple_receiver
              simple_conn simple_client
              (simple_voice_client 1 960 0 (simple_session "xsalsa20_poly1305" true))
              ltac:(simpl; lia) ltac:(simpl; lia) ltac:(simpl; lia))
    as (header & Hheader & _ & _ & _ & _ & _ & _ & _ & _ & _ & _ & _ & Hexample).
  split; [lia|]. split; [lia|]. split; [lia|].
  rewrite Hheader. f_equal. apply Hexample; reflexivity.
Defined.

(** C3 at the largest counter: the nonce bytes are FF FF FF FF and the
    counter is reset to 0, the sequence 7 and the timestamp 960 staying. *)
Lemma encrypt_lite_layout_example :
  0 <= 4294967295 <= 4294967295
  /\ @_encrypt_xsalsa20_poly1305_lite simple_nacl simple_codec simple_player
       simple_receiver simple_conn simple_client example_header [1; 2; 3]
       (simple_world
          (simple_voice_client 7 960 4294967295 (simple_session "xsalsa20_poly1305_lite" true)))
     = (Ok (example_header ++ (replicate 16 0 ++ [1; 2; 3]) ++ [255; 255; 255; 255]),
        simple_world
          (simple_voice_client 7 960 0 (simple_session "xsalsa20_poly1305_lite" true))).
Proof.
  destruct (@encrypt_lite_layout simple_nacl simple_codec simple_player simple_receiver
              simple_conn simple_client example_header [1; 2; 3]
              (simple_world
                 (simple_voice_client 7 960 4294967295
                    (simple_session "xsalsa20_poly1305_lite" true)))
              (replicate 32 7) ltac:(simpl; lia) ltac:(reflexivity))
    as (Hrun & _).
  split; [lia|]. rewrite Hrun. reflexivity.
Defined.

(** C4 on the example header: no byte follows the ciphertext in plain mode,
    the 24 bytes of the draw follow it in suffix mode. *)
Lemma encrypt_plain_and_suffix_layout_example :
  length example_header = 12%nat
  /\ @_encrypt_xsalsa20_poly1305 simple_nacl simple_codec simple_player simple_receiver
       simple_conn simple_client example_header [1; 2; 3]
       (simple_world (simple_voice_client 1 960 0 (simple_session "xsalsa20_poly1305" true)))
     = (Ok (example_header ++ replicate 16 0 ++ [1; 2; 3]),
        simple_world (simple_voice_client 1 960 0 (simple_session "xsalsa20_poly1305" true)))
  /\ (@_encrypt_xsalsa20_poly1305_suffix simple_nacl simple_codec simple_player
        simple_receiver simple_conn simple_client example_header [1; 2; 3]
        (simple_world
           (simple_voice_client 1 960 0 (simple_session "xsalsa20_poly1305" true)))).1
     = Ok (example_header ++ (replicate 16 0 ++ [1; 2; 3]) ++ replicate 24 0).
Proof.
  destruct (@encrypt_plain_and_suffix_layout simple_nacl simple_codec simple_player
              simple_receiver simple_conn simple_client example_header [1; 2; 3]
              (simple_world
                 (simple_voice_client 1 960 0 (simple_session "xsalsa20_poly1305" true)))
              (replicate 32 7) ltac:(reflexivity) ltac:(reflexivity))
    as ((Hplain & _) & (Hsuffix & _)).
  split; [reflexivity|]. split.
  - rewrite Hplain. reflexivity.
  - rewrite Hsuffix. reflexivity.
Defined.

(** C8 with the link down, the sequence at 65535 and the timestamp 296 short
    of its limit: the [OSError] is swallowed and logged, and both counters
    are reset to 0. *)
Lemma send_audio_packet_counters_example :
  let w0 :=
    simple_world
      (simple_voice_client 65535 4294967000 0 (simple_session "xsalsa20_poly1305" false)) in
  let out :=
    @send_audio_packet simple_nacl simple_codec simple_enc simple_player simple_receiver
      simple_conn simple_client [1; 2; 3] false w0 in
  out.1 = Ok tt
  /\ sequence (self out.2) = 0
  /\ timestamp (self out.2) = 0
  /\ effects out.2 = [Log INFO packet_dropped_message [0; 4294967000]].
Proof.
  intros w0 out.
  edestruct (@send_audio_packet_counters simple_nacl simple_codec simple_enc simple_player
               simple_receiver simple_conn simple_client [1; 2; 3] false w0)
    as (Hok & Hseq & Hts & _ & _ & _ & _ & Hlog).
  - reflexivity.
  - reflexivity.
  - right. reflexivity.
  - split; [exact Hok|]. split; [exact Hseq|]. split; [exact Hts|].
    apply Hlog. reflexivity.
Defined.

(** C6 at a PCM source and [bitrate=1024] on a connected, idle client:
    [ValueError], and the world is as before the call. *)
Lemma play_checks_example :
  let w0 :=
    simple_world (simple_voice_client 0 0 0 (simple_session "xsalsa20_poly1305" true)) in
  @play simple_codec simple_player simple_receiver simple_conn simple_client
    (Instance false) None (simple_config 1024) w0
  = (Raise ValueError, w0)
  /\ (@play simple_codec simple_player simple_receiver simple_conn simple_client
        (Instance false) None (simple_config 128) w0).1
     = Ok tt.
Proof.
  intros w0.
  destruct (@play_checks simple_codec simple_player simple_receiver simple_conn
              simple_client (Instance false) None (simple_config 1024) w0)
    as (_ & _ & Hchecked).
  destruct (Hchecked eq_refl eq_refl) as (_ & _ & Hrate & _).
  split; [|reflexivity].
  apply Hrate. reflexivity.
Defined.

(** C7 at a connected client whose receiver is on standby and still
    cleaning: with [decode=True] and no pool the call raises
    [ClientException]; with the pool and no suppression it logs the warning
    and starts listening. *)
Lemma listen_checks_example :
  let w0 := simple_world (simple_listener true) in
  let out :=
    @listen simple_codec simple_player simple_receiver simple_conn simple_client
      (Instance tt) true false None ∅ w0 in
  @listen simple_codec simple_player simple_receiver simple_conn simple_client
    (Instance tt) true false None ∅ (simple_world_without_pool (simple_listener true))
  = (Raise ClientException, simple_world_without_pool (simple_listener true))
  /\ out.1 = Ok tt
  /\ effects out.2 = [Log WARNING cleanup_in_progress_message []]
  /\ is_listen_receiving (self out.2) = true.
Proof.
  intros w0 out.
  destruct (@listen_checks simple_codec simple_player simple_receiver simple_conn
              simple_client (Instance tt) true false None ∅
              (simple_world_without_pool (simple_listener true)))
    as (_ & _ & Hchecked).
  destruct (Hchecked eq_refl eq_refl) as (Hpool & _).
  split; [apply Hpool; reflexivity|].
  destruct (@listen_checks simple_codec simple_player simple_receiver simple_conn
              simple_client (Instance tt) true false None ∅ w0)
    as (_ & _ & Hchecked').
  destruct (Hchecked' eq_refl eq_refl) as (_ & Hgo).
  subst out. rewrite (Hgo eq_refl). split; [reflexivity|]. split; reflexivity.
Defined.

(** C5, at the example payload and a client that is handshaking: the update
    stops with [AttributeError] at the assignment of the token, a property
    without a setter.  The client is left as it was: no socket was opened, no
    receiver started, no server id stored, nothing logged. *)
Theorem on_voice_server_update_fails_at_token :
  let w0 :=
    @Build_World simple_codec simple_player simple_receiver simple_conn simple_client
      (@Build_VoiceClient simple_codec simple_player simple_receiver simple_conn
         simple_client 1 None None 0 0 None None None 0 VoiceConnectionState_new None
         (Some false) (Some true) (Some false))
      ({[1]}, true) true 0%nat [] in
  example_payload !! "token" = Some (PyStr "a1b2c3")
  /\ example_payload !! "endpoint" = Some (PyStr "wss://voice.example:443")
  /\ on_voice_server_update example_payload w0 = (Raise AttributeError, w0)
  /\ socket (self w0) = None
  /\ _receiver (self w0) = None
  /\ server_id (self w0) = None.
Proof.
  cbv zeta. split; [reflexivity|]. split; [reflexivity|].
  split; [|repeat split].
  rewrite on_voice_server_update_outcome. reflexivity.
Qed.

(** C9, at a client fresh from [__init__]: [disconnect(force=True)] raises
    [AttributeError] on the missing receiver, after the registration was
    removed and before the connected signal is touched. *)
Theorem disconnect_fails_on_fresh_client :
  exists s,
    @__init__ simple_codec simple_player simple_receiver simple_conn simple_client true 1
    = Ok s
    /\ _receiver s = None
    /\ (disconnect true (simple_world s)).1 = Raise AttributeError
    /\ (state (disconnect true (simple_world s)).2).1 = ∅
    /\ _connected (self (disconnect true (simple_world s)).2) = None.
Proof.
  eexists. split; [reflexivity|]. split; [reflexivity|].
  match goal with
  | |- context [disconnect true ?w] =>
      destruct (@disconnect_without_receiver simple_codec simple_player simple_receiver
                  simple_conn simple_client true w eq_refl) as [_ Hout];
      rewrite (Hout _ eq_refl)
  end.
  split; [reflexivity|]. split; [|reflexivity].
  cbn. apply difference_diag_L.
Qed.

(** * Further properties *)

Section MoreProperties.

Context {nacl : SecretBoxCapability} {codec : CodecCapability} {enc : EncodeCapability}.
Context {player : PlayerCapability} {receiver : ReceiverCapability}.
Context {conn : ConnectionCapability} {client : ClientCapability}.
Context {player_control : PlayerControlCapability}.
Context {receiver_control : ReceiverControlCapability}.
Context {sock : SocketCapability}.

(** ** Counters stay in range *)

Lemma checked_add_getattr (s : VoiceClient) (attr : counter_attr) (d L : Z) :
  getattr (checked_add s attr d L) attr
  = if L <? getattr s attr + d then 0 else getattr s attr + d.
Proof. now rewrite checked_add_setattr, getattr_setattr, Z.gtb_ltb. Qed.

(** X1: one [checked_add] with a non-negative increment and limit brings a
    non-negative counter into 0..limit, also a counter that was above the
    limit before. *)
Theorem checked_add_bounds (s : VoiceClient) (attr : counter_attr) (d L : Z) :
  0 <= getattr s attr -> 0 <= d -> 0 <= L ->
  0 <= getattr (checked_add s attr d L) attr <= L.
Proof.
  intros Hv Hd HL. rewrite checked_add_getattr.
  destruct (Z.ltb_spec L (getattr s attr + d)); lia.
Qed.

(** X2: with increment 1 the reset rule is wrap-around modulo [L + 1]: from
    a counter [v] in 0..L, [k] calls leave [(v + k) mod (L + 1)], so the
    counter is back at [v] after [L + 1] calls and at no call before. *)
Theorem checked_add_one_wraps (s : VoiceClient) (attr : counter_attr) (L : Z) (k : nat) :
  0 <= getattr s attr <= L ->
  let step := fun s0 : VoiceClient => checked_add s0 attr 1 L in
  getattr (Nat.iter k step s) attr = (getattr s attr + Z.of_nat k) mod (L + 1)
  /\ getattr (Nat.iter (Z.to_nat (L + 1)) step s) attr = getattr s attr
  /\ (0 < Z.of_nat k <= L -> getattr (Nat.iter k step s) attr <> getattr s attr).
Proof.
  intros Hv step.
  assert (Hiter : forall n : nat,
            getattr (Nat.iter n step s) attr = (getattr s attr + Z.of_nat n) mod (L + 1)).
  { induction n as [|n IH].
    - rewrite Z.add_0_r, Z.mod_small; [reflexivity | lia].
    - change (Nat.iter (S n) step s) with (step (Nat.iter n step s)). unfold step at 1.
      rewrite checked_add_setattr, getattr_setattr, IH, Z.gtb_ltb.
      pose proof (Z.mod_pos_bound (getattr s attr + Z.of_nat n) (L + 1) ltac:(lia)) as Hm.
      rewrite Nat2Z.inj_succ.
      replace (getattr s attr + Z.succ (Z.of_nat n))
        with ((getattr s attr + Z.of_nat n) + 1) by lia.
      rewrite (Z.add_mod (getattr s attr + Z.of_nat n) 1 (L + 1)) by lia.
      destruct (Z.ltb_spec L ((getattr s attr + Z.of_nat n) mod (L + 1) + 1)) as [Hgt|Hle].
      + assert (Hlast : (getattr s attr + Z.of_nat n) mod (L + 1) = L) by lia.
        rewrite Hlast. destruct (Z.eq_dec L 0) as [->|HL].
        * reflexivity.
        * rewrite (Z.mod_small 1 (L + 1)) by lia. now rewrite Z.mod_same by lia.
      + destruct (Z.eq_dec L 0) as [->|HL]; [lia|].
        rewrite (Z.mod_small 1 (L + 1)) by lia.
        rewrite (Z.mod_small ((getattr s attr + Z.of_nat n) mod (L + 1) + 1) (L + 1)) by lia.
        reflexivity. }
  split; [apply Hiter|]. split.
  - rewrite Hiter, Z2Nat.id by lia.
    rewrite <- (Z.mul_1_l (L + 1)) at 1. rewrite Z.mod_add by lia.
    apply Z.mod_small. lia.
  - intros Hk. rewrite Hiter.
    destruct (Z_lt_le_dec (getattr s attr + Z.of_nat k) (L + 1)) as [Hlt|Hge].
    + rewrite Z.mod_small by lia. lia.
    + replace (getattr s attr + Z.of_nat k)
        with ((getattr s attr + Z.of_nat k - (L + 1)) + 1 * (L + 1)) by lia.
      rewrite Z.mod_add by lia. rewrite Z.mod_small by lia. lia.
Qed.

(** X3: [checked_add] with increment [d] keeps a counter that is a multiple
    of [d] a multiple of [d], across the reset as well: a timestamp that
    starts at 0 is at every time a whole number of frames. *)
Theorem checked_add_keeps_multiples (s : VoiceClient) (attr : counter_attr) (d L : Z)
  (k : nat) :
  (d | getattr s attr) ->
  (d | getattr (Nat.iter k (fun s0 => checked_add s0 attr d L) s) attr).
Proof.
  intros Hdiv. induction k as [|k IH]; [exact Hdiv|].
  rewrite Nat.iter_succ, checked_add_setattr, getattr_setattr.
  destruct (_ >? L).
  - apply Z.divide_0_r.
  - apply Z.divide_add_r; [exact IH | apply Z.divide_refl].
Qed.

(** ** Every outcome of [send_audio_packet] *)

Lemma encode_step_world (data : bytes) (encode_flag : bool) (w : World) :
  exists r, (if encode_flag then encoder_encode data else ret data) w = (r, w).
Proof.
  destruct encode_flag; [|eexists; reflexivity].
  unfold encoder_encode, bind, get_self, raise, lift_res.
  destruct (encoder (self w)); eexists; reflexivity.
Qed.

Lemma get_voice_packet_world (data : bytes) (w : World) :
  packet_effect w (_get_voice_packet data w).2.
Proof.
  assert (Hsame : packet_effect w w) by now left.
  assert (Hdraw : packet_effect w (set_random_calls (S (random_calls w)) w))
    by (right; now left).
  assert (Hlite : packet_effect w
                    (set_self (checked_add (self w) attr__lite_nonce 1 4294967295) w))
    by (right; now right).
  unfold _get_voice_packet, bind, get_self, lift_res.
  destruct (rtp_header (self w)) as [header|e]; [|exact Hsame].
  unfold getattr_encrypt.
  destruct (String.eqb _ "_encrypt_xsalsa20_poly1305").
  { unfold _encrypt_xsalsa20_poly1305, bind at 1. rewrite make_box_outcome.
    destruct (res_bind _ _); [|exact Hsame].
    unfold bind, lift_res, ret. destruct (box_encrypt _ _ _); exact Hsame. }
  destruct (String.eqb _ "_encrypt_xsalsa20_poly1305_suffix").
  { unfold _encrypt_xsalsa20_poly1305_suffix, bind at 1. rewrite make_box_outcome.
    destruct (res_bind _ _); [|exact Hsame].
    unfold bind, nacl_utils_random, lift_res, ret.
    destruct (box_encrypt _ _ _); exact Hdraw. }
  destruct (String.eqb _ "_encrypt_xsalsa20_poly1305_lite"); [|exact Hsame].
  unfold _encrypt_xsalsa20_poly1305_lite, bind at 1. rewrite make_box_outcome.
  destruct (res_bind _ _); [|exact Hsame].
  unfold bind, get_self, lift_res, modify_self, modify, ret.
  destruct (struct_pack fmt_I _); [|exact Hsame].
  destruct (box_encrypt _ _ _); exact Hlite.
Qed.

(** The counters after [send_audio_packet], outcome by outcome. *)
Lemma send_audio_packet_cases (data : bytes) (encode_flag : bool) (w : World) :
  let out := send_audio_packet data encode_flag w in
  let seq' := getattr (checked_add (self w) attr_sequence 1 65535) attr_sequence in
  let ts' :=
    getattr (checked_add (self w) attr_timestamp SAMPLES_PER_FRAME 4294967295)
      attr_timestamp in
  let lite' := getattr (checked_add (self w) attr__lite_nonce 1 4294967295) attr__lite_nonce in
  sequence (self out.2) = seq'
  /\ (_lite_nonce (self out.2) = _lite_nonce (self w) \/ _lite_nonce (self out.2) = lite')
  /\ ((out.1 = Ok tt /\ timestamp (self out.2) = ts')
      \/ ((exists e, out.1 = Raise e) /\ timestamp (self out.2) = timestamp (self w))).
Proof.
  intros out seq' ts' lite'.
  assert (Hout : out = send_audio_packet data encode_flag w) by reflexivity.
  assert (Eseq : seq' = getattr (checked_add (self w) attr_sequence 1 65535) attr_sequence)
    by reflexivity.
  assert (Ets : ts' = getattr (checked_add (self w) attr_timestamp SAMPLES_PER_FRAME
                                 4294967295) attr_timestamp) by reflexivity.
  assert (Elite : lite' = getattr (checked_add (self w) attr__lite_nonce 1 4294967295)
                            attr__lite_nonce) by reflexivity.
  clearbody out seq' ts' lite'. unfold send_audio_packet in Hout.
  unfold bind at 1 in Hout. unfold modify_self at 1, modify at 1 in Hout.
  set (w1 := set_self (checked_add (self w) attr_sequence 1 65535) w) in Hout.
  assert (Hseq1 : sequence (self w1) = seq') by (now rewrite Eseq).
  assert (Hts1 : timestamp (self w1) = timestamp (self w)).
  { subst w1. cbn [self set_self]. now rewrite checked_add_setattr. }
  assert (Hlite1 : _lite_nonce (self w1) = _lite_nonce (self w)).
  { subst w1. cbn [self set_self]. now rewrite checked_add_setattr. }
  unfold bind at 1 in Hout.
  destruct (encode_step_world data encode_flag w1) as [r Hr]. rewrite Hr in Hout.
  destruct r as [encoded|e].
  2:{ subst out. cbn [fst snd]. rewrite Hts1, Hlite1. split; [exact Hseq1|].
      split; [now left|]. right. split; [eauto|reflexivity]. }
  unfold bind at 1 in Hout.
  pose proof (get_voice_packet_world encoded w1) as Hw2.
  destruct (_get_voice_packet encoded w1) as [r2 w2]. cbn [snd] in Hw2.
  assert (Hseq2 : sequence (self w2) = seq').
  { destruct Hw2 as [-> | [-> | ->]]; try exact Hseq1.
    cbn [self set_self]. now rewrite checked_add_setattr. }
  assert (Hts2 : timestamp (self w2) = timestamp (self w)).
  { destruct Hw2 as [-> | [-> | ->]]; try exact Hts1.
    cbn [self set_self]. now rewrite checked_add_setattr. }
  assert (Hlite2 : _lite_nonce (self w2) = _lite_nonce (self w)
                   \/ _lite_nonce (self w2) = lite').
  { destruct Hw2 as [-> | [-> | ->]]; [now left | now left |].
    right. rewrite Elite. cbn [self set_self].
    rewrite !checked_add_setattr, !getattr_setattr.
    cbn [getattr]. now rewrite Hlite1. }
  clear Hw2. destruct r2 as [packet|e].
  2:{ subst out. cbn [fst snd]. rewrite Hts2. split; [exact Hseq2|].
      split; [exact Hlite2|]. right. split; [eauto|reflexivity]. }
  unfold bind, try_except, on_connection, get_self, _log, emit, modify_self, modify
    in Hout.
  rewrite checked_add_setattr, getattr_setattr in Ets. cbn [getattr] in Ets.
  destruct (conn_send_packet packet (_connection (self w2))) as [[[]|e] c].
  - subst out. cbn. rewrite !checked_add_setattr. cbn.
    rewrite Hts2, <- Ets. split; [exact Hseq2|]. split; [exact Hlite2|]. now left.
  - destruct (decide (e = OSError)) as [->|Hne].
    + subst out. cbn. rewrite !checked_add_setattr. cbn.
      rewrite Hts2, <- Ets. split; [exact Hseq2|]. split; [exact Hlite2|]. now left.
    + subst out. cbn. split; [exact Hseq2|]. split; [exact Hlite2|].
      right. split; [eauto|exact Hts2].
Qed.

(** X4: whatever [send_audio_packet] does, the sequence has advanced by one
    step of [checked_add], also when encoding, building the packet or sending
    raised; the timestamp has advanced when the call returned and is
    untouched when it raised, so every failed call uses up a sequence number
    and no timestamp. *)
Theorem send_audio_packet_every_outcome (data : bytes) (encode_flag : bool) (w : World) :
  let out := send_audio_packet data encode_flag w in
  sequence (self out.2)
  = (if sequence (self w) + 1 >? 65535 then 0 else sequence (self w) + 1)
  /\ (out.1 = Ok tt ->
      timestamp (self out.2)
      = (if timestamp (self w) + SAMPLES_PER_FRAME >? 4294967295 then 0
         else timestamp (self w) + SAMPLES_PER_FRAME))
  /\ (forall e, out.1 = Raise e -> timestamp (self out.2) = timestamp (self w)).
Proof.
  cbv zeta.
  destruct (send_audio_packet_cases data encode_flag w) as (Hseq & _ & Hts).
  rewrite checked_add_setattr, getattr_setattr in Hseq.
  rewrite checked_add_setattr, getattr_setattr in Hts.
  cbn [getattr] in Hseq, Hts.
  split; [exact Hseq|]. split.
  - intros Hok. destruct Hts as [[_ Hts]|[[e He] _]]; [exact Hts|congruence].
  - intros e He. destruct Hts as [[Hok _]|[_ Hts]]; [congruence|exact Hts].
Qed.

(** X5: [send_audio_packet] keeps the three counters within the fields they
    are packed into, in every outcome, provided the frame size is not
    negative; so once in range, no later call fails on packing a counter. *)
Theorem send_audio_packet_keeps_counters_in_range (data : bytes) (encode_flag : bool)
  (w : World) :
  0 <= SAMPLES_PER_FRAME ->
  counters_in_range (self w) ->
  counters_in_range (self (send_audio_packet data encode_flag w).2).
Proof.
  intros Hframe (Hseq & Hts & Hlite).
  destruct (send_audio_packet_cases data encode_flag w) as (Hseq' & Hlite' & Hts').
  assert (Bounded : forall attr d L,
            0 <= getattr (self w) attr -> 0 <= d -> 0 <= L ->
            0 <= getattr (checked_add (self w) attr d L) attr <= L).
  { intros attr d L Hv Hd HL. rewrite checked_add_getattr.
    destruct (Z.ltb_spec L (getattr (self w) attr + d)); lia. }
  pose proof (Bounded attr_sequence 1 65535) as Bseq.
  pose proof (Bounded attr_timestamp SAMPLES_PER_FRAME 4294967295) as Bts.
  pose proof (Bounded attr__lite_nonce 1 4294967295) as Blite.
  cbn [getattr] in Bseq, Bts, Blite.
  unfold counters_in_range. rewrite Hseq'.
  split; [apply Bseq; lia|]. split.
  - destruct Hts' as [[_ ->]|[_ ->]]; [apply Bts; lia | exact Hts].
  - destruct Hlite' as [-> | ->]; [exact Hlite | apply Blite; lia].
Qed.

(** ** Headers and packets *)

Lemma struct_pack_into_overflow (f : struct_format) (buffer : bytes) (offset : nat) (v : Z) :
  ~ 0 <= v < 256 ^ Z.of_nat (calcsize f) ->
  struct_pack_into f buffer offset v = Raise StructError.
Proof.
  intros Hv. unfold struct_pack_into.
  destruct (_ <=? _)%nat; [|reflexivity].
  now rewrite (struct_pack_overflow f v Hv).
Qed.

Lemma rtp_header_overflow (s : VoiceClient) :
  ~ (0 <= sequence s <= 65535
     /\ 0 <= timestamp s <= 4294967295
     /\ 0 <= ssrc s <= 4294967295) ->
  rtp_header s = Raise StructError.
Proof.
  intros Hrange. unfold rtp_header.
  destruct (Z_le_dec 0 (sequence s)), (Z_le_dec (sequence s) 65535);
    try (rewrite (struct_pack_into_overflow fmt_H) by (cbn; lia); reflexivity).
  rewrite (struct_pack_into_fits fmt_H) by (cbn; lia). cbn [res_bind].
  destruct (Z_le_dec 0 (timestamp s)), (Z_le_dec (timestamp s) 4294967295);
    try (rewrite (struct_pack_into_overflow fmt_I) by (cbn; lia); reflexivity).
  rewrite (struct_pack_into_fits fmt_I) by (cbn; lia). cbn [res_bind].
  apply struct_pack_into_overflow. cbn. lia.
Qed.

Lemma rtp_header_inversion (s : VoiceClient) (header : bytes) :
  rtp_header s = Ok header ->
  header = header_fields (sequence s) (timestamp s) (ssrc s) /\ length header = 12%nat.
Proof.
  intros Hok.
  destruct (Z_le_dec 0 (sequence s)), (Z_le_dec (sequence s) 65535),
    (Z_le_dec 0 (timestamp s)), (Z_le_dec (timestamp s) 4294967295),
    (Z_le_dec 0 (ssrc s)), (Z_le_dec (ssrc s) 4294967295);
    try (rewrite rtp_header_overflow in Hok by lia; discriminate).
  rewrite rtp_header_fields in Hok by lia. injection Hok as <-.
  split; [reflexivity|].
  unfold header_fields. rewrite !length_app, !be_bytes_length. reflexivity.
Qed.

(** X6: the header is built exactly when the sequence fits 16 bits and the
    timestamp and the SSRC fit 32 bits; otherwise [_get_voice_packet] raises
    [struct.error] before any encryption method runs, so no nonce and no
    random draw is used up. *)
Theorem rtp_header_succeeds_iff (data : bytes) (w : World) :
  let s := self w in
  let fits :=
    0 <= sequence s <= 65535
    /\ 0 <= timestamp s <= 4294967295
    /\ 0 <= ssrc s <= 4294967295 in
  ((exists header, rtp_header s = Ok header) <-> fits)
  /\ (~ fits -> rtp_header s = Raise StructError)
  /\ (~ fits -> _get_voice_packet data w = (Raise StructError, w)).
Proof.
  cbv zeta. split; [split|split].
  - intros [header Hok].
    destruct (Z_le_dec 0 (sequence (self w))), (Z_le_dec (sequence (self w)) 65535),
      (Z_le_dec 0 (timestamp (self w))), (Z_le_dec (timestamp (self w)) 4294967295),
      (Z_le_dec 0 (ssrc (self w))), (Z_le_dec (ssrc (self w)) 4294967295);
      try (rewrite rtp_header_overflow in Hok by lia; discriminate).
    lia.
  - intros (Hseq & Hts & Hssrc). eexists. now apply rtp_header_fields.
  - apply rtp_header_overflow.
  - intros Hfits. unfold _get_voice_packet, bind, get_self, lift_res.
    now rewrite (rtp_header_overflow (self w) Hfits).
Qed.

Lemma encrypt_method_name (m : string) :
  getattr_encrypt ("_encrypt_" ++ m)%string
  = if String.eqb m "xsalsa20_poly1305" then Ok _encrypt_xsalsa20_poly1305
    else if String.eqb m "xsalsa20_poly1305_suffix" then Ok _encrypt_xsalsa20_poly1305_suffix
    else if String.eqb m "xsalsa20_poly1305_lite" then Ok _encrypt_xsalsa20_poly1305_lite
    else Raise AttributeError.
Proof. reflexivity. Qed.

(** X7: the client has an encryption method for a mode exactly when the mode
    is one of [supported_modes]; with any other negotiated mode, and a header
    that fits, [_get_voice_packet] raises [AttributeError] and changes
    nothing. *)
Theorem encryption_method_iff_supported (m : string) (data : bytes) (w : World) :
  ((exists f, getattr_encrypt ("_encrypt_" ++ m)%string = Ok f) <-> In m supported_modes)
  /\ (~ In m supported_modes ->
      getattr_encrypt ("_encrypt_" ++ m)%string = Raise AttributeError)
  /\ (mode (self w) = m -> ~ In m supported_modes ->
      (exists header, rtp_header (self w) = Ok header) ->
      _get_voice_packet data w = (Raise AttributeError, w)).
Proof.
  assert (Hno : ~ In m supported_modes ->
                getattr_encrypt ("_encrypt_" ++ m)%string = Raise AttributeError).
  { intros Hnot. rewrite encrypt_method_name.
    destruct (String.eqb_spec m "xsalsa20_poly1305") as [->|_];
      [exfalso; apply Hnot; cbn; tauto|].
    destruct (String.eqb_spec m "xsalsa20_poly1305_suffix") as [->|_];
      [exfalso; apply Hnot; cbn; tauto|].
    destruct (String.eqb_spec m "xsalsa20_poly1305_lite") as [->|_];
      [exfalso; apply Hnot; cbn; tauto|].
    reflexivity. }
  split; [split|split].
  - intros [f Hf].
    destruct (in_dec string_dec m supported_modes) as [Hin|Hnot]; [exact Hin|].
    rewrite (Hno Hnot) in Hf. discriminate.
  - intros Hin. rewrite encrypt_method_name.
    cbn in Hin. destruct Hin as [<- | [<- | [<- | []]]]; cbn; eauto.
  - exact Hno.
  - intros Hmode Hnot [header Hheader].
    unfold _get_voice_packet, bind, get_self, lift_res.
    now rewrite Hheader, Hmode, (Hno Hnot).
Qed.

Lemma encrypt_plain_prefix (header data : bytes) (w w' : World) (packet : bytes) :
  _encrypt_xsalsa20_poly1305 header data w = (Ok packet, w') ->
  exists ciphertext, packet = header ++ ciphertext /\ w' = w.
Proof.
  unfold _encrypt_xsalsa20_poly1305, bind at 1. rewrite make_box_outcome.
  destruct (res_bind _ _); [|discriminate].
  unfold bind, lift_res, ret.
  destruct (box_encrypt _ _ _) as [ciphertext|]; [|discriminate].
  intros [= <- <-]. eauto.
Qed.

Lemma encrypt_suffix_prefix (header data : bytes) (w w' : World) (packet : bytes) :
  _encrypt_xsalsa20_poly1305_suffix header data w = (Ok packet, w') ->
  exists ciphertext,
    packet = header ++ ciphertext ++ nacl_random (random_calls w) NONCE_SIZE
    /\ w' = set_random_calls (S (random_calls w)) w.
Proof.
  unfold _encrypt_xsalsa20_poly1305_suffix, bind at 1. rewrite make_box_outcome.
  destruct (res_bind _ _); [|discriminate].
  unfold bind, nacl_utils_random, lift_res, ret.
  destruct (box_encrypt _ _ _) as [ciphertext|]; [|discriminate].
  intros [= <- <-]. eauto.
Qed.

Lemma encrypt_lite_prefix (header data : bytes) (w w' : World) (packet : bytes) :
  _encrypt_xsalsa20_poly1305_lite header data w = (Ok packet, w') ->
  0 <= _lite_nonce (self w) <= 4294967295
  /\ exists ciphertext,
      packet = header ++ ciphertext ++ be_bytes 4 (_lite_nonce (self w))
      /\ w' = set_self (checked_add (self w) attr__lite_nonce 1 4294967295) w.
Proof.
  unfold _encrypt_xsalsa20_poly1305_lite, bind at 1. rewrite make_box_outcome.
  destruct (res_bind _ _); [|discriminate].
  unfold bind, get_self, lift_res, modify_self, modify, ret.
  destruct (Z_le_dec 0 (_lite_nonce (self w))), (Z_le_dec (_lite_nonce (self w)) 4294967295);
    try (rewrite (struct_pack_overflow fmt_I) by (cbn; lia); discriminate).
  rewrite (struct_pack_fits fmt_I) by (cbn; lia).
  destruct (box_encrypt _ _ _) as [ciphertext|]; [|discriminate].
  intros [= <- <-]. split; [lia|]. eauto.
Qed.

Lemma get_voice_packet_header (data : bytes) (w w' : World) (packet : bytes) :
  _get_voice_packet data w = (Ok packet, w') ->
  exists header rest,
    rtp_header (self w) = Ok header
    /\ packet = header ++ rest
    /\ In (mode (self w)) supported_modes.
Proof.
  unfold _get_voice_packet, bind, get_self, lift_res.
  destruct (rtp_header (self w)) as [header|e] eqn:Hheader; [|discriminate].
  rewrite encrypt_method_name.
  destruct (String.eqb_spec (mode (self w)) "xsalsa20_poly1305") as [Hm|_].
  { intros Hrun. destruct (encrypt_plain_prefix _ _ _ _ _ Hrun) as (c & Hp & _).
    exists header, c. split; [reflexivity|]. split; [exact Hp|].
    rewrite Hm. cbn. tauto. }
  destruct (String.eqb_spec (mode (self w)) "xsalsa20_poly1305_suffix") as [Hm|_].
  { intros Hrun. destruct (encrypt_suffix_prefix _ _ _ _ _ Hrun) as (c & Hp & _).
    eexists header, _. split; [reflexivity|]. split; [exact Hp|].
    rewrite Hm. cbn. tauto. }
  destruct (String.eqb_spec (mode (self w)) "xsalsa20_poly1305_lite") as [Hm|_];
    [|discriminate].
  intros Hrun. destruct (encrypt_lite_prefix _ _ _ _ _ Hrun) as (_ & c & Hp & _).
  eexists header, _. split; [reflexivity|]. split; [exact Hp|].
  rewrite Hm. cbn. tauto.
Qed.

(** X8: every packet [_get_voice_packet] returns begins with the 12 bytes of
    the header of the client's current sequence, timestamp and SSRC, and the
    ciphertext and the nonce bytes come after them, whatever the mode. *)
Theorem voice_packet_starts_with_header (data : bytes) (w w' : World) (packet : bytes) :
  _get_voice_packet data w = (Ok packet, w') ->
  take 12 packet
  = header_fields (sequence (self w)) (timestamp (self w)) (ssrc (self w))
  /\ rtp_header (self w) = Ok (take 12 packet)
  /\ (12 <= length packet)%nat
  /\ In (mode (self w)) supported_modes.
Proof.
  intros Hrun.
  destruct (get_voice_packet_header _ _ _ _ Hrun) as (header & rest & Hheader & -> & Hmode).
  destruct (rtp_header_inversion _ _ Hheader) as [Hfields Hlen].
  rewrite take_app_length' by (symmetry; exact Hlen).
  rewrite length_app, Hlen, Hheader.
  split; [now rewrite Hfields|]. split; [reflexivity|]. split; [lia | exact Hmode].
Qed.

(** ** Keys and nonces *)

Lemma bytes_of_ints_spec (l : list Z) :
  (is_bytes l -> bytes_of_ints l = Ok l)
  /\ (~ is_bytes l -> bytes_of_ints l = Raise ValueError).
Proof.
  unfold bytes_of_ints, is_bytes.
  destruct (forallb (fun x => (0 <=? x) && (x <? 256)) l) eqn:Hall.
  - split; [reflexivity|]. intros Hnot. exfalso. apply Hnot.
    apply Forall_forall. intros x Hx.
    rewrite forallb_forall in Hall. apply list_elem_of_In in Hx.
    specialize (Hall x Hx). apply andb_prop in Hall as [Hlo Hhi].
    apply Z.leb_le in Hlo. apply Z.ltb_lt in Hhi. lia.
  - split; [|reflexivity]. intros Hbytes. exfalso.
    assert (forallb (fun x => (0 <=? x) && (x <? 256)) l = true) as Htrue.
    { apply forallb_forall. intros x Hx. apply list_elem_of_In in Hx.
      rewrite Forall_forall in Hbytes. specialize (Hbytes x Hx).
      apply andb_true_intro. split; [apply Z.leb_le | apply Z.ltb_lt]; lia. }
    congruence.
Qed.

(** X9: when the secret box cannot be built from the key, each encryption
    method raises that error and changes nothing: the lite nonce is not
    advanced and no random nonce is drawn.  A key with an element outside
    0..255 is such a key, the error being [ValueError]. *)
Theorem rejected_key_uses_no_nonce (header data : bytes) (w : World) :
  let built := res_bind (bytes_of_ints (secret_key (self w))) SecretBox in
  (~ is_bytes (secret_key (self w)) -> built = Raise ValueError)
  /\ (forall e, built = Raise e ->
      _encrypt_xsalsa20_poly1305 header data w = (Raise e, w)
      /\ _encrypt_xsalsa20_poly1305_suffix header data w = (Raise e, w)
      /\ _encrypt_xsalsa20_poly1305_lite header data w = (Raise e, w)).
Proof.
  cbv zeta. split.
  - intros Hkey. now rewrite (proj2 (bytes_of_ints_spec _) Hkey).
  - intros e He.
    unfold _encrypt_xsalsa20_poly1305, _encrypt_xsalsa20_poly1305_suffix,
      _encrypt_xsalsa20_poly1305_lite.
    repeat split; unfold bind at 1; now rewrite make_box_outcome, He.
Qed.

Lemma drop_trailing (l b : bytes) : drop (length (l ++ b) - length b) (l ++ b) = b.
Proof.
  rewrite length_app. replace (length l + length b - length b)%nat with (length l) by lia.
  now rewrite drop_app_length.
Qed.

Lemma be_bytes_injective (size : nat) (a b : Z) :
  0 <= a < 256 ^ Z.of_nat size -> 0 <= b < 256 ^ Z.of_nat size ->
  be_bytes size a = be_bytes size b -> a = b.
Proof.
  intros Ha Hb Heq.
  rewrite <- (be_value_be_bytes size a Ha), <- (be_value_be_bytes size b Hb).
  now rewrite Heq.
Qed.

(** X10: two packets encrypted one after the other in lite mode never carry
    the same four nonce bytes: the second carries the bytes of the next
    counter value, and 0 after 4294967295 differs from it as well. *)
Theorem lite_consecutive_nonces_differ (header1 data1 header2 data2 : bytes)
  (w w1 w2 : World) (packet1 packet2 : bytes) :
  _encrypt_xsalsa20_poly1305_lite header1 data1 w = (Ok packet1, w1) ->
  _encrypt_xsalsa20_poly1305_lite header2 data2 w1 = (Ok packet2, w2) ->
  let n := _lite_nonce (self w) in
  let n' := if n =? 4294967295 then 0 else n + 1 in
  drop (length packet1 - 4) packet1 = be_bytes 4 n
  /\ drop (length packet2 - 4) packet2 = be_bytes 4 n'
  /\ drop (length packet1 - 4) packet1 <> drop (length packet2 - 4) packet2.
Proof.
  intros Hfirst Hsecond n n'.
  destruct (encrypt_lite_prefix _ _ _ _ _ Hfirst) as (Hn & c1 & Hp1 & Hw1).
  destruct (encrypt_lite_prefix _ _ _ _ _ Hsecond) as (Hn1 & c2 & Hp2 & _).
  assert (Hnext : _lite_nonce (self w1) = n').
  { rewrite Hw1. cbn [self set_self]. rewrite checked_add_setattr.
    cbn [getattr setattr]. subst n n'. cbn. rewrite Z.gtb_ltb.
    destruct (Z.ltb_spec 4294967295 (_lite_nonce (self w) + 1)),
      (Z.eqb_spec (_lite_nonce (self w)) 4294967295); try reflexivity; lia. }
  rewrite Hnext in Hp2, Hn1.
  assert (Htail : forall h c v, drop (length (h ++ c ++ be_bytes 4 v) - 4)
                                  (h ++ c ++ be_bytes 4 v) = be_bytes 4 v).
  { intros h c v. rewrite app_assoc.
    rewrite <- (be_bytes_length 4 v) at 2. apply drop_trailing. }
  rewrite Hp1, Hp2, !Htail.
  split; [reflexivity|]. split; [reflexivity|].
  intros Heq. apply be_bytes_injective in Heq; [|cbn; lia|cbn; lia].
  subst n'. destruct (Z.eqb_spec n 4294967295); lia.
Qed.

(** ** The player *)

Lemma world_eta (w : World) :
  w = set_opus (opus w)
        (set_self (set__player (_player (self w)) (set_encoder (encoder (self w)) (self w)))
           w).
Proof. destruct w as [s st o n eff]. destruct s. reflexivity. Qed.

(** [play] writes the encoder, the player and the state of the Opus
    library, and nothing else. *)
Lemma play_world (source0 : pyobj AudioSource) (after : option callback)
  (cfg : EncoderConfig) (w : World) :
  exists o en pl,
    (play source0 after cfg w).2
    = set_opus o (set_self (set__player pl (set_encoder en (self w))) w).
Proof.
  assert (Hsame : exists o en pl,
             w = set_opus o (set_self (set__player pl (set_encoder en (self w))) w))
    by (do 3 eexists; apply world_eta).
  unfold play, bind at 1, get_self.
  destruct (negb (is_connected (self w))); [exact Hsame|].
  destruct (is_playing (self w)); [exact Hsame|].
  destruct source0 as [src|cls]; [|exact Hsame].
  destruct (negb (is_opus src)).
  - unfold bind at 1 2.
    destruct (opus_Encoder_frame cfg w) as [o Ho].
    destruct (opus_Encoder cfg w) as [[e|err] w1]; cbn [snd] in Ho; subst w1.
    + unfold modify_self at 1, modify at 1. unfold bind, lift_res, modify_self, modify.
      destruct (AudioPlayer_new src after) as [p|err].
      * exists o, (Some e), (Some (player_start p)).
        destruct w as [s st o0 n eff]. destruct s. reflexivity.
      * exists o, (Some e), (_player (self w)).
        destruct w as [s st o0 n eff]. destruct s. reflexivity.
    + exists o, (encoder (self w)), (_player (self w)).
      destruct w as [s st o0 n eff]. destruct s. reflexivity.
  - unfold bind, ret, lift_res, modify_self, modify.
    destruct (AudioPlayer_new src after) as [p|err]; [|exact Hsame].
    exists (opus w), (encoder (self w)), (Some (player_start p)).
    destruct w as [s st o0 n eff]. destruct s. reflexivity.
Qed.

Lemma pause_world (w : World) :
  exists pl, pause w = (Ok tt, set_self (set__player pl (self w)) w).
Proof.
  unfold pause, bind, get_self, modify_self, modify, ret.
  destruct (_player (self w)) as [p|] eqn:Hp; [eauto|].
  exists None. destruct w as [s st o n eff]. destruct s. cbn in *. now subst.
Qed.

Lemma resume_world (w : World) :
  exists pl, resume w = (Ok tt, set_self (set__player pl (self w)) w).
Proof.
  unfold resume, bind, get_self, modify_self, modify, ret.
  destruct (_player (self w)) as [p|] eqn:Hp; [eauto|].
  exists None. destruct w as [s st o n eff]. destruct s. cbn in *. now subst.
Qed.

(** X11: no method of the player interface touches a packet counter:
    [play], in any outcome, [stop], [pause] and [resume] leave the sequence,
    the timestamp and the lite nonce as they were, so a new source continues
    the numbering of the one before it. *)
Theorem player_methods_keep_counters (source0 : pyobj AudioSource)
  (after : option callback) (cfg : EncoderConfig) (w : World) (attr : counter_attr) :
  getattr (self (play source0 after cfg w).2) attr = getattr (self w) attr
  /\ getattr (self (stop w).2) attr = getattr (self w) attr
  /\ getattr (self (pause w).2) attr = getattr (self w) attr
  /\ getattr (self (resume w).2) attr = getattr (self w) attr.
Proof.
  destruct (play_world source0 after cfg w) as (o & en & pl & ->).
  rewrite stop_outcome.
  destruct (pause_world w) as [pl1 ->]. destruct (resume_world w) as [pl2 ->].
  destruct attr; repeat split.
Qed.

(** X12: [stop] always returns, and after it the client has no player: it is
    not playing and not paused, it has no source, a second [stop], a
    [pause] and a [resume] change nothing, and assigning a source raises
    [ValueError], or [TypeError] when the value is not an [AudioSource]. *)
Theorem after_stop (w : World) (v : AudioSource) (cls : string) :
  let w' := (stop w).2 in
  (stop w).1 = Ok tt
  /\ _player (self w') = None
  /\ is_playing (self w') = false
  /\ is_paused (self w') = false
  /\ source (self w') = None
  /\ stop w' = (Ok tt, w')
  /\ pause w' = (Ok tt, w')
  /\ resume w' = (Ok tt, w')
  /\ source_setter (Instance v) w' = (Raise ValueError, w')
  /\ source_setter (NotInstance cls) w' = (Raise TypeError, w').
Proof.
  cbv zeta. rewrite stop_outcome. cbn [fst snd].
  repeat match goal with |- _ /\ _ => split end; reflexivity.
Qed.

Lemma play_success (src : AudioSource) (after : option callback) (cfg : EncoderConfig)
  (w w' : World) :
  play (Instance src) after cfg w = (Ok tt, w') ->
  is_connected (self w) = true
  /\ _connection (self w') = _connection (self w)
  /\ exists p, AudioPlayer_new src after = Ok p /\ _player (self w') = Some (player_start p).
Proof.
  unfold play, bind at 1, get_self.
  destruct (is_connected (self w)) eqn:Hc; [|discriminate]. cbn [negb].
  destruct (is_playing (self w)); [discriminate|].
  assert (Hplayer : forall w0 : World,
            bind (lift_res (AudioPlayer_new src after)) (fun p =>
            bind (modify_self (set__player (Some p))) (fun _ =>
            modify_self (set__player (Some (player_start p))))) w0 = (Ok tt, w') ->
            _connection (self w') = _connection (self w0)
            /\ exists p, AudioPlayer_new src after = Ok p
                         /\ _player (self w') = Some (player_start p)).
  { intros w0. unfold bind, lift_res, modify_self, modify.
    destruct (AudioPlayer_new src after) as [p|]; [|discriminate].
    intros [= <-]. split; [reflexivity|]. eauto. }
  destruct (negb (is_opus src)).
  - unfold bind at 1 2.
    destruct (opus_Encoder_frame cfg w) as [o Ho].
    destruct (opus_Encoder cfg w) as [[e|err] w1]; [|discriminate].
    cbn [snd] in Ho. subst w1.
    unfold modify_self at 1, modify at 1. intros Hrun.
    destruct (Hplayer _ Hrun) as [Hconn Hp]. split; [reflexivity|]. split; [|exact Hp].
    rewrite Hconn. reflexivity.
  - unfold bind at 1, ret at 1. intros Hrun.
    destruct (Hplayer _ Hrun) as [Hconn Hp]. now split.
Qed.

(** X13: after a [play] that returned, and while the player it started
    reports that it is playing, another [play] raises [ClientException] and
    changes nothing, whatever its source and configuration: a client never
    has two players. *)
Theorem play_twice_is_rejected (src : AudioSource) (after after2 : option callback)
  (cfg cfg2 : EncoderConfig) (source2 : pyobj AudioSource) (w w' : World) :
  play (Instance src) after cfg w = (Ok tt, w') ->
  (forall p, AudioPlayer_new src after = Ok p -> player_is_playing (player_start p) = true) ->
  play source2 after2 cfg2 w' = (Raise ClientException, w').
Proof.
  intros Hfirst Hplaying.
  destruct (play_success _ _ _ _ _ Hfirst) as (Hc & Hconn & p & Hnew & Hp).
  unfold play, bind at 1, get_self.
  unfold is_connected in *. rewrite Hconn, Hc. cbn [negb].
  unfold is_playing. rewrite Hp, (Hplaying p Hnew). reflexivity.
Qed.

(** ** The receiver *)

(** X14: on a connected client that has no receiver yet, [listen] passes the
    check for active listening and then fails: with [decode] false it raises
    [AttributeError] at [start_listening] and changes nothing, and with
    [decode] true it never returns normally either; no warning is logged. *)
Theorem listen_without_receiver (snk : AudioSink) (decode supress_warning : bool)
  (after : option callback) (kwargs : gmap string pyval) (w : World) :
  _receiver (self w) = None ->
  is_connected (self w) = true ->
  is_audio_process_pool_initialized w = true ->
  let out := listen (Instance snk) decode supress_warning after kwargs w in
  (decode = false -> out = (Raise AttributeError, w))
  /\ (exists e, out.1 = Raise e)
  /\ effects out.2 = effects w
  /\ self out.2 = self w.
Proof.
  intros Hrecv Hc Hpool out.
  assert (Hout : out = listen (Instance snk) decode supress_warning after kwargs w)
    by reflexivity.
  clearbody out. unfold listen in Hout. unfold bind at 1 in Hout.
  unfold get_world in Hout. cbn beta iota zeta in Hout.
  unfold is_listen_receiving, is_listen_cleaning in Hout.
  rewrite Hc, Hrecv, Hpool, andb_false_r in Hout. cbn [negb] in Hout.
  unfold bind at 1, ret at 1 in Hout.
  unfold receiver_start_listening in Hout.
  destruct decode.
  - unfold bind, opus_get_opus_version, ret in Hout.
    destruct (get_opus_version (opus w)) as [[v|e] o].
    + cbn in Hout. rewrite Hrecv in Hout. subst out.
      split; [discriminate|]. cbn. eauto.
    + subst out. split; [discriminate|]. cbn. eauto.
  - unfold bind, ret in Hout. rewrite Hrecv in Hout. subst out.
    split; [reflexivity|]. cbn. eauto.
Qed.

(** ** Disconnecting *)

(** X15: on a client that has a receiver and a connected signal, and whose
    connection state tears down without error, [disconnect] returns: the
    player is gone, the registration is removed, the receiver is stopped and
    the signal is cleared, while the three counters keep their values. *)
Theorem disconnect_completes (force : bool) (w : World) (r : AudioReceiver) (b : bool)
  (c : VoiceConnectionState) :
  _receiver (self w) = Some r ->
  _connected (self w) = Some b ->
  conn_disconnect force (_connection (self w)) = (Ok tt, c) ->
  let out := disconnect force w in
  out.1 = Ok tt
  /\ _player (self out.2) = None
  /\ _connection (self out.2) = c
  /\ state out.2
     = _remove_voice_client (_get_voice_client_key (channel (self w))).1 (state w)
  /\ _receiver (self out.2) = Some (receiver_stop r)
  /\ _connected (self out.2) = Some false
  /\ (forall attr, getattr (self out.2) attr = getattr (self w) attr)
  /\ effects out.2 = effects w.
Proof.
  intros Hrecv Hsig Hconn out.
  assert (Hout : out = disconnect force w) by reflexivity.
  clearbody out. unfold disconnect in Hout. unfold bind at 1 in Hout.
  rewrite stop_outcome in Hout.
  unfold bind, on_connection, cleanup, get_self, modify_self, modify, raise in Hout.
  cbn in Hout. rewrite Hconn in Hout. cbn in Hout.
  rewrite Hrecv in Hout. cbn in Hout. rewrite Hsig in Hout. subst out. cbn.
  repeat match goal with |- _ /\ _ => split end; try reflexivity.
Qed.

(** X16: when the connection state's own [disconnect] raises, [disconnect]
    raises the same exception and stops there: the player has been stopped,
    but the registration is not removed and the receiver is not stopped,
    because [cleanup] is reached only after a teardown that returns. *)
Theorem disconnect_teardown_error_skips_cleanup (force : bool) (w : World) (e : exn)
  (c : VoiceConnectionState) :
  conn_disconnect force (_connection (self w)) = (Raise e, c) ->
  let out := disconnect force w in
  out.1 = Raise e
  /\ _player (self out.2) = None
  /\ state out.2 = state w
  /\ _receiver (self out.2) = _receiver (self w)
  /\ _connected (self out.2) = _connected (self w).
Proof.
  intros Hconn out.
  assert (Hout : out = disconnect force w) by reflexivity.
  clearbody out. unfold disconnect in Hout. unfold bind at 1 in Hout.
  rewrite stop_outcome in Hout.
  unfold bind at 1, on_connection in Hout.
  cbn in Hout. rewrite Hconn in Hout. subst out. cbn.
  repeat split.
Qed.

(** ** Receiving *)

(** X17: [recv_audio] reads from the socket only when [select] reports it
    readable and not in error and the connected signal is set.  On an error
    it logs and returns [None]; when nothing is readable it returns [None]
    without looking at the signal; with the signal cleared it returns [None]
    and leaves the datagram on the socket.  When it does read, the datagram
    is taken off the socket and returned, unless [dump] is true: then it is
    taken off and dropped, and the call never returns data. *)
Theorem recv_audio_cases (dump : bool) (w : World) (net : network) (sk : Socket) :
  socket (self w) = Some sk ->
  let out := recv_audio dump (w, net) in
  let ready := (select_select sk net).1 in
  let err := (select_select sk net).2 in
  (err = true ->
   out = (Ok None, (set_effects (effects w ++ [Log ERROR socket_error_message []]) w, net)))
  /\ (err = false -> ready = false -> out = (Ok None, (w, net)))
  /\ (err = false -> ready = true -> _connected (self w) = Some false ->
      out = (Ok None, (w, net)))
  /\ (err = false -> ready = true -> _connected (self w) = None ->
      out = (Raise AttributeError, (w, net)))
  /\ (err = false -> ready = true -> _connected (self w) = Some true ->
      out = (match (socket_recv sk 4096 net).1 with
             | Ok data => Ok (if dump then None else Some data)
             | Raise e => Raise e
             end, (w, (socket_recv sk 4096 net).2)))
  /\ (dump = true -> forall data, out.1 <> Ok (Some data)).
Proof.
  intros Hsock out ready err.
  assert (Hout : out = recv_audio dump (w, net)) by reflexivity.
  clearbody out. unfold recv_audio in Hout. unfold bind at 1 in Hout.
  unfold get_world in Hout. cbn beta iota zeta in Hout. cbn [fst snd] in Hout.
  rewrite Hsock in Hout. subst ready err.
  destruct (select_select sk net) as [ready err]. cbn [fst snd].
  destruct err.
  { subst out.
    repeat match goal with |- _ /\ _ => split end;
      intros; cbn [fst snd]; first [discriminate | reflexivity]. }
  destruct ready.
  2:{ subst out.
      repeat match goal with |- _ /\ _ => split end;
        intros; cbn [fst snd]; first [discriminate | reflexivity]. }
  cbn [negb] in Hout.
  destruct (_connected (self w)) as [[]|].
  - unfold bind, ret in Hout. cbn [fst snd] in Hout.
    destruct (socket_recv sk 4096 net) as [[data|e] net'].
    + subst out.
      repeat match goal with |- _ /\ _ => split end;
        intros; subst; cbn [fst snd];
        first [discriminate | reflexivity | now destruct dump].
    + subst out.
      repeat match goal with |- _ /\ _ => split end;
        intros; cbn [fst snd]; first [discriminate | reflexivity].
  - subst out.
    repeat match goal with |- _ /\ _ => split end;
      intros; cbn [fst snd]; first [discriminate | reflexivity].
  - subst out.
    repeat match goal with |- _ /\ _ => split end;
      intros; cbn [fst snd]; first [discriminate | reflexivity].
Qed.

(** ** The packet that is sent *)

(** X18: the packet [send_audio_packet] hands to the connection is built
    after the sequence was advanced and before the timestamp is: its header
    carries the advanced sequence and the timestamp of before the call.  A
    client whose counters are both 0 therefore sends sequence 1 with
    timestamp 0 first. *)
Theorem sent_packet_numbering (data : bytes) (w w2 : World) (packet : bytes) :
  let w1 := set_self (checked_add (self w) attr_sequence 1 65535) w in
  _get_voice_packet data w1 = (Ok packet, w2) ->
  let seq' := if sequence (self w) + 1 >? 65535 then 0 else sequence (self w) + 1 in
  take 12 packet = header_fields seq' (timestamp (self w)) (ssrc (self w))
  /\ send_audio_packet data false w
     = bind (try_except (on_connection (conn_send_packet packet)) OSError
               (bind get_self (fun s =>
                  _log INFO packet_dropped_message [sequence s; timestamp s])))
         (fun _ => modify_self
                     (fun s => checked_add s attr_timestamp SAMPLES_PER_FRAME 4294967295))
         w2
  /\ (sequence (self w) = 0 -> timestamp (self w) = 0 ->
      take 8 packet = [0x80; 0x78; 0; 1; 0; 0; 0; 0]).
Proof.
  intros w1 Hpkt seq'.
  assert (Hhead : take 12 packet
                  = header_fields (sequence (self w1)) (timestamp (self w1))
                      (ssrc (self w1))).
  { destruct (get_voice_packet_header _ _ _ _ Hpkt) as (header & rest & Hheader & -> & _).
    destruct (rtp_header_inversion _ _ Hheader) as [Hfields Hlen].
    rewrite take_app_length' by (symmetry; exact Hlen). exact Hfields. }
  assert (Hseq1 : sequence (self w1) = seq').
  { subst w1 seq'. cbn [self set_self]. now rewrite checked_add_setattr. }
  assert (Hts1 : timestamp (self w1) = timestamp (self w)).
  { subst w1. cbn [self set_self]. now rewrite checked_add_setattr. }
  assert (Hssrc1 : ssrc (self w1) = ssrc (self w)).
  { subst w1. cbn [self set_self]. now rewrite checked_add_setattr. }
  rewrite Hseq1, Hts1, Hssrc1 in Hhead.
  split; [exact Hhead|]. split.
  - unfold send_audio_packet. unfold bind at 1. unfold modify_self at 1, modify at 1.
    fold w1. unfold bind at 1, ret at 1. unfold bind at 1. now rewrite Hpkt.
  - intros Hseq0 Hts0.
    assert (Htake : take 8 packet = take 8 (take 12 packet)).
    { rewrite take_take. reflexivity. }
    rewrite Htake, Hhead. subst seq'. rewrite Hseq0, Hts0. reflexivity.
Qed.

(** ** A client fresh from the constructor *)

(** X19: on a client as [__init__] returns it, the player and receiver
    controls are safe to call and do nothing: [stop], [pause], [resume],
    [stop_listening], [pause_listening] and [resume_listening] return and
    leave the world as it is; every query answers no and [source] is [None];
    assigning [source] raises [ValueError]. *)
Theorem fresh_client_controls (chan : Channel) (w : World) (v : AudioSource) :
  __init__ true chan = Ok (self w) ->
  (forall m, In m [stop; pause; resume; stop_listening; pause_listening;
                   resume_listening] -> m w = (Ok tt, w))
  /\ (forall q, In q [is_playing; is_paused; is_listening; is_listening_paused;
                      is_listen_receiving; is_listen_cleaning] -> q (self w) = false)
  /\ source (self w) = None
  /\ source_setter (Instance v) w = (Raise ValueError, w).
Proof.
  intros Hinit. cbn in Hinit.
  assert (Hp : _player (self w) = None) by (injection Hinit as <-; reflexivity).
  assert (Hr : _receiver (self w) = None) by (injection Hinit as <-; reflexivity).
  clear Hinit.
  repeat match goal with |- _ /\ _ => split end.
  - intros m Hm. cbn [In] in Hm.
    repeat (destruct Hm as [<- | Hm]);
      try (unfold stop, pause, resume, stop_listening, pause_listening,
             resume_listening, bind, get_self, ret; cbn beta iota;
           rewrite ?Hp, ?Hr; reflexivity).
    destruct Hm.
  - intros q Hq. cbn [In] in Hq.
    repeat (destruct Hq as [<- | Hq]);
      try (unfold is_playing, is_paused, is_listening, is_listening_paused,
             is_listen_receiving, is_listen_cleaning;
           rewrite ?Hp, ?Hr; reflexivity).
    destruct Hq.
  - unfold source. now rewrite Hp.
  - unfold source_setter, bind, get_self, raise. cbn beta iota. now rewrite Hp.
Qed.

End MoreProperties.

(** * The further properties at concrete inputs *)

(** X1 at the timestamp 4294967000 advanced by 960. *)
Lemma checked_add_bounds_example :
  0 <= getattr
         (checked_add (simple_voice_client 65535 4294967000 0 (simple_session "" true))
            attr_timestamp 960 4294967295)
         attr_timestamp
    <= 4294967295.
Proof.
  apply (@checked_add_bounds simple_codec simple_player simple_receiver simple_conn
           simple_client
           (simple_voice_client 65535 4294967000 0 (simple_session "" true))
           attr_timestamp 960 4294967295); simpl; lia.
Defined.

(** X2 at the sequence 65534: three packets later it is 1. *)
Lemma checked_add_one_wraps_example :
  getattr
    (Nat.iter 3 (fun s0 => checked_add s0 attr_sequence 1 65535)
       (simple_voice_client 65534 0 0 (simple_session "" true)))
    attr_sequence
  = 1.
Proof.
  pose proof (@checked_add_one_wraps simple_codec simple_player simple_receiver
                simple_conn simple_client
                (simple_voice_client 65534 0 0 (simple_session "" true))
                attr_sequence 65535 3%nat ltac:(simpl; lia)) as H.
  cbv zeta in H. destruct H as (H & _ & _).
  rewrite H. reflexivity.
Defined.

(** X3 at a timestamp that starts at 0 and advances by 960 three times. *)
Lemma checked_add_keeps_multiples_example :
  (960 | getattr
           (Nat.iter 3 (fun s0 => checked_add s0 attr_timestamp 960 4294967295)
              (simple_voice_client 0 0 0 (simple_session "" true)))
           attr_timestamp).
Proof.
  apply (@checked_add_keeps_multiples simple_codec simple_player simple_receiver
           simple_conn simple_client
           (simple_voice_client 0 0 0 (simple_session "" true))
           attr_timestamp 960 4294967295 3%nat).
  simpl. apply Z.divide_0_r.
Defined.

(** X5 with both counters about to pass their limits. *)
Lemma send_audio_packet_keeps_counters_in_range_example :
  let w0 :=
    simple_world
      (simple_voice_client 65535 4294967000 0 (simple_session "xsalsa20_poly1305" true)) in
  counters_in_range
    (self (@send_audio_packet simple_nacl simple_codec simple_enc simple_player
             simple_receiver simple_conn simple_client [1; 2; 3] false w0).2).
Proof.
  intros w0.
  apply (@send_audio_packet_keeps_counters_in_range simple_nacl simple_codec simple_enc
           simple_player simple_receiver simple_conn simple_client [1; 2; 3] false w0).
  - simpl. lia.
  - unfold counters_in_range. simpl. lia.
Defined.

(** X8 in plain mode at sequence 1, timestamp 960 and SSRC 12345. *)
Lemma voice_packet_starts_with_header_example :
  let w0 :=
    simple_world (simple_voice_client 1 960 0 (simple_session "xsalsa20_poly1305" true)) in
  let packet := example_header ++ replicate 16 0 ++ [1; 2; 3] in
  @_get_voice_packet simple_nacl simple_codec simple_player simple_receiver simple_conn
    simple_client [1; 2; 3] w0
  = (Ok packet, w0)
  /\ take 12 packet = header_fields 1 960 12345
  /\ In "xsalsa20_poly1305" supported_modes.
Proof.
  intros w0 packet.
  assert (Hrun : @_get_voice_packet simple_nacl simple_codec simple_player simple_receiver
                   simple_conn simple_client [1; 2; 3] w0
                 = (Ok packet, w0)) by reflexivity.
  destruct (@voice_packet_starts_with_header simple_nacl simple_codec simple_player
              simple_receiver simple_conn simple_client [1; 2; 3] w0 w0 packet Hrun)
    as (Hhead & _ & _ & Hmode).
  split; [exact Hrun|]. split; [exact Hhead | exact Hmode].
Defined.

(** X10 at the largest nonce: the first packet ends in FF FF FF FF, the
    next one in 00 00 00 00. *)
Lemma lite_consecutive_nonces_differ_example :
  let w0 :=
    simple_world
      (simple_voice_client 7 960 4294967295 (simple_session "xsalsa20_poly1305_lite" true)) in
  let packet1 := example_header ++ (replicate 16 0 ++ [1; 2; 3]) ++ [255; 255; 255; 255] in
  let packet2 := example_header ++ (replicate 16 0 ++ [4; 5]) ++ [0; 0; 0; 0] in
  (@_encrypt_xsalsa20_poly1305_lite simple_nacl simple_codec simple_player
     simple_receiver simple_conn simple_client example_header [1; 2; 3] w0).1
  = Ok packet1
  /\ drop (length packet1 - 4) packet1 <> drop (length packet2 - 4) packet2.
Proof.
  intros w0 packet1 packet2.
  pose (w1 := simple_world
                (simple_voice_client 7 960 0 (simple_session "xsalsa20_poly1305_lite" true))).
  pose (w2 := simple_world
                (simple_voice_client 7 960 1 (simple_session "xsalsa20_poly1305_lite" true))).
  assert (Hrun1 : @_encrypt_xsalsa20_poly1305_lite simple_nacl simple_codec simple_player
                    simple_receiver simple_conn simple_client example_header [1; 2; 3] w0
                  = (Ok packet1, w1)) by reflexivity.
  assert (Hrun2 : @_encrypt_xsalsa20_poly1305_lite simple_nacl simple_codec simple_player
                    simple_receiver simple_conn simple_client example_header [4; 5] w1
                  = (Ok packet2, w2)) by reflexivity.
  pose proof (@lite_consecutive_nonces_differ simple_nacl simple_codec simple_player
                simple_receiver simple_conn simple_client example_header [1; 2; 3]
                example_header [4; 5] w0 w1 w2 packet1 packet2 Hrun1 Hrun2) as H.
  cbv zeta in H. destruct H as (_ & _ & Hdiff).
  split; [now rewrite Hrun1 | exact Hdiff].
Defined.

(** X13 on a connected, idle client: after a first [play] a second one is
    rejected. *)
Lemma play_twice_is_rejected_example :
  let w0 :=
    simple_world (simple_voice_client 0 0 0 (simple_session "xsalsa20_poly1305" true)) in
  let w1 :=
    (@play simple_codec simple_player simple_receiver simple_conn simple_client
       (Instance false) None (simple_config 128) w0).2 in
  @play simple_codec simple_player simple_receiver simple_conn simple_client
    (Instance true) None (simple_config 64) w1
  = (Raise ClientException, w1).
Proof.
  intros w0 w1.
  apply (@play_twice_is_rejected simple_codec simple_player simple_receiver simple_conn
           simple_client false None None (simple_config 128) (simple_config 64)
           (Instance true) w0 w1).
  - reflexivity.
  - intros p _. reflexivity.
Defined.

(** X14 on a connected client without a receiver, with [decode=False]. *)
Lemma listen_without_receiver_example :
  let w0 :=
    simple_world (simple_voice_client 0 0 0 (simple_session "xsalsa20_poly1305" true)) in
  @listen simple_codec simple_player simple_receiver simple_conn simple_client
    (Instance tt) false false None ∅ w0
  = (Raise AttributeError, w0).
Proof.
  intros w0.
  pose proof (@listen_without_receiver simple_codec simple_player simple_receiver
                simple_conn simple_client tt false false None ∅ w0
                eq_refl eq_refl eq_refl) as H.
  cbv zeta in H. destruct H as (H & _).
  exact (H eq_refl).
Defined.

(** X15 on a client in the middle of a call. *)
Lemma disconnect_completes_example :
  let out :=
    @disconnect simple_codec simple_player simple_receiver simple_conn simple_client
      false (simple_world (simple_live_client true)) in
  out.1 = Ok tt
  /\ is_playing (self out.2) = false
  /\ is_listen_receiving (self out.2) = false
  /\ _connected (self out.2) = Some false.
Proof.
  intros out.
  pose proof (@disconnect_completes simple_codec simple_player simple_receiver
                simple_conn simple_client false (simple_world (simple_live_client true))
                (false, false) true
                (@conn_disconnect simple_conn false
                   (simple_session "xsalsa20_poly1305" true)).2
                eq_refl eq_refl eq_refl) as H.
  cbv zeta in H. fold out in H.
  destruct H as (Hok & Hplayer & _ & _ & Hrecv & Hsig & _).
  split; [exact Hok|]. split.
  - unfold is_playing. now rewrite Hplayer.
  - split; [|exact Hsig]. unfold is_listen_receiving. now rewrite Hrecv.
Defined.

(** X16 on the connection whose teardown raises [OSError]. *)
Lemma disconnect_teardown_error_skips_cleanup_example :
  let out :=
    @disconnect simple_codec simple_player simple_receiver broken_conn simple_client
      true broken_world in
  out.1 = Raise OSError
  /\ state out.2 = state broken_world
  /\ is_listen_receiving (self out.2) = true.
Proof.
  intros out.
  pose proof (@disconnect_teardown_error_skips_cleanup simple_codec simple_player
                simple_receiver broken_conn simple_client true broken_world OSError
                (simple_session "xsalsa20_poly1305" true) eq_refl) as H.
  cbv zeta in H. fold out in H.
  destruct H as (Herr & _ & Hstate & Hrecv & _).
  split; [exact Herr|]. split; [exact Hstate|].
  unfold is_listen_receiving. now rewrite Hrecv.
Defined.

(** X17 with one datagram waiting and the signal set: the datagram is
    returned and the socket is left empty. *)
Lemma recv_audio_cases_example :
  @recv_audio simple_codec simple_player simple_receiver simple_conn simple_client
    simple_sock false (simple_world (simple_live_client true), simple_inbox)
  = (Ok (Some [1; 2; 3]), (simple_world (simple_live_client true), [])).
Proof.
  pose proof (@recv_audio_cases simple_codec simple_player simple_receiver simple_conn
                simple_client simple_sock false (simple_world (simple_live_client true))
                simple_inbox (setblocking false socket_socket) eq_refl) as H.
  cbv zeta in H. destruct H as (_ & _ & _ & _ & H & _).
  exact (H eq_refl eq_refl eq_refl).
Defined.

(** X18 on a client fresh in its counters: the first packet carries
    sequence 1 and timestamp 0. *)
Lemma sent_packet_numbering_example :
  let w0 :=
    simple_world (simple_voice_client 0 0 0 (simple_session "xsalsa20_poly1305" true)) in
  let w1 := set_self (checked_add (self w0) attr_sequence 1 65535) w0 in
  let packet := header_fields 1 0 12345 ++ replicate 16 0 ++ [1; 2; 3] in
  @_get_voice_packet simple_nacl simple_codec simple_player simple_receiver simple_conn
    simple_client [1; 2; 3] w1
  = (Ok packet, w1)
  /\ take 8 packet = [0x80; 0x78; 0; 1; 0; 0; 0; 0].
Proof.
  intros w0 w1 packet.
  assert (Hrun : @_get_voice_packet simple_nacl simple_codec simple_player simple_receiver
                   simple_conn simple_client [1; 2; 3] w1
                 = (Ok packet, w1)) by reflexivity.
  pose proof (@sent_packet_numbering simple_nacl simple_codec simple_enc simple_player
                simple_receiver simple_conn simple_client [1; 2; 3] w0 w1 packet Hrun) as H.
  cbv zeta in H. destruct H as (_ & _ & Hfirst).
  split; [exact Hrun|]. exact (Hfirst eq_refl eq_refl).
Defined.

(** X19 on the client the constructor returns for channel 1. *)
Lemma fresh_client_controls_example :
  let w0 := simple_world (simple_voice_client 0 0 0 (@VoiceConnectionState_new simple_conn)) in
  pause (player_control := simple_player_control) w0 = (Ok tt, w0)
  /\ source_setter (player_control := simple_player_control) (Instance true) w0
     = (Raise ValueError, w0).
Proof.
  intros w0.
  destruct (@fresh_client_controls simple_codec simple_player simple_receiver simple_conn
              simple_client simple_player_control simple_receiver_control 1 w0 true
              eq_refl)
    as (Hcontrols & _ & _ & Hsource).
  split; [|exact Hsource].
  apply Hcontrols. right. left. reflexivity.
Defined.
